(** * The authentication view set of [accounts/views.py]

    A shallow embedding of [AuthViewSet]: the database tables the views
    read and write are finite maps from primary key to row, every view is
    a computation in a state-and-exception monad over the database, and
    [try]/[except] blocks are handlers that match on the exception class.
    Rows written before an exception is raised stay written, as they do
    in a Django view that is not wrapped in a transaction. *)

From stdpp Require Import gmap strings list fin_maps pretty.

Local Open Scope string_scope.
Local Open Scope Z_scope.

(** ** Time

    [datetime] values are counted in microseconds, the resolution of
    Python's [datetime]; [timedelta] is the [timedelta(hours=...)] of the
    source. *)

Definition datetime := Z.

Definition timedelta (hours : Z) : Z := hours * 3600 * 1000000.

Definition minutes (m : Z) : Z := m * 60 * 1000000.

(** ** Rows *)

(** The user model: the identity (email), the password hash, the
    verification flag and the free-form profile fields. *)
Record User := mkUser {
  email : string;
  password : string;
  is_verified : bool;
  profile : gmap string string
}.

(** [EmailVerificationToken] and [PasswordResetToken] rows have the same
    shape: the random token string, the owning user (a foreign key) and
    the creation timestamp. *)
Record OneTimeToken := mkOneTimeToken {
  token : string;
  user : Z;
  created_at : datetime
}.

(** A model instance is a row together with the primary key it is stored
    under. *)
Definition instance (A : Type) : Type := Z * A.

(** [request.user]: [None] is Django's [AnonymousUser]. *)
Definition request_user : Type := option (instance User).

(** ** Bearer tokens and the revocation ledger *)

Inductive token_type := Access | Refresh.

#[global] Instance token_type_eq_dec : EqDecision token_type.
Proof. solve_decision. Defined.

(** The claims of a signed token: its type, the subject, the unique token
    identifier, and the issue and expiry instants. *)
Record Token := mkToken {
  typ : token_type;
  user_id : Z;
  jti : Z;
  iat : datetime;
  exp : datetime
}.

(** [str(token)]: what travels on the wire.  A string either carries a
    valid signature over some claims or it does not decode at all. *)
Inductive bearer :=
| Signed (t : Token)
| Garbage (s : string).

Inductive ledger_status := outstanding | blacklisted.

Record RevocationEntry := mkEntry {
  subject : option Z;
  status : ledger_status
}.

(** ** The database *)

Record db := mkDb {
  User_objects : gmap Z User;
  EmailVerificationToken_objects : gmap Z OneTimeToken;
  PasswordResetToken_objects : gmap Z OneTimeToken;
  ledger : gmap Z RevocationEntry;
  next_jti : Z;
  clock : datetime
}.

Definition set_User_objects (f : gmap Z User → gmap Z User) (st : db) : db :=
  mkDb (f (User_objects st)) (EmailVerificationToken_objects st)
       (PasswordResetToken_objects st) (ledger st) (next_jti st) (clock st).

Definition set_EmailVerificationToken_objects
    (f : gmap Z OneTimeToken → gmap Z OneTimeToken) (st : db) : db :=
  mkDb (User_objects st) (f (EmailVerificationToken_objects st))
       (PasswordResetToken_objects st) (ledger st) (next_jti st) (clock st).

Definition set_PasswordResetToken_objects
    (f : gmap Z OneTimeToken → gmap Z OneTimeToken) (st : db) : db :=
  mkDb (User_objects st) (EmailVerificationToken_objects st)
       (f (PasswordResetToken_objects st)) (ledger st) (next_jti st) (clock st).

Definition set_ledger (f : gmap Z RevocationEntry → gmap Z RevocationEntry)
    (st : db) : db :=
  mkDb (User_objects st) (EmailVerificationToken_objects st)
       (PasswordResetToken_objects st) (f (ledger st)) (next_jti st) (clock st).

Definition set_next_jti (n : Z) (st : db) : db :=
  mkDb (User_objects st) (EmailVerificationToken_objects st)
       (PasswordResetToken_objects st) (ledger st) n (clock st).

Definition set_clock (t : datetime) (st : db) : db :=
  mkDb (User_objects st) (EmailVerificationToken_objects st)
       (PasswordResetToken_objects st) (ledger st) (next_jti st) t.

(** ** Exceptions and the view monad *)

Inductive model := UserModel | EmailVerificationToken | PasswordResetToken.

Inductive exn :=
| ValidationError
| TokenError (msg : string)
| DoesNotExist (m : model)
| MultipleObjectsReturned (m : model)
| TypeError
| NotImplementedError
| UnboundLocalError (name : string)
| AttributeError.

Inductive result (A : Type) :=
| Ok (a : A)
| Raise (e : exn).
Arguments Ok {A} a.
Arguments Raise {A} e.

Definition M (A : Type) : Type := db → result A * db.

Definition ret {A} (a : A) : M A := λ st, (Ok a, st).

Definition bind {A B} (c : M A) (k : A → M B) : M B :=
  λ st, match c st with
        | (Ok a, st') => k a st'
        | (Raise e, st') => (Raise e, st')
        end.

Definition raise {A} (e : exn) : M A := λ st, (Raise e, st).

(** [try: body except: handler].  The handler sees the exception and the
    database as the body left it; a handler that does not know the
    exception class re-raises it. *)
Definition try_except {A} (body : M A) (handler : exn → M A) : M A :=
  λ st, match body st with
        | (Ok a, st') => (Ok a, st')
        | (Raise e, st') => handler e st'
        end.

Definition get_db : M db := λ st, (Ok st, st).

Definition modify (f : db → db) : M unit := λ st, (Ok tt, f st).

Notation "x <- c1 ;; c2" := (bind c1 (λ x, c2))
  (at level 20, c1 at level 99, c2 at level 200, only parsing).
Notation "c1 ;; c2" := (bind c1 (λ _, c2))
  (at level 100, c2 at level 200, only parsing, right associativity).

Definition timezone_now : M datetime := λ st, (Ok (clock st), st).

(** ** The object manager *)

Section objects.
Context {A : Type}.

(** The rows of [tbl] that satisfy the lookup [q]. *)
Definition objects_filter (q : A → bool) (tbl : gmap Z A) : list (instance A) :=
  map_to_list (filter (λ kr, q kr.2 = true) tbl).

(** [Model.objects.get(...)]: exactly one matching row, or [DoesNotExist],
    or [MultipleObjectsReturned]. *)
Definition objects_get (m : model) (q : A → bool) (tbl : gmap Z A)
    : M (instance A) :=
  match objects_filter q tbl with
  | [] => raise (DoesNotExist m)
  | [o] => ret o
  | _ => raise (MultipleObjectsReturned m)
  end.

(** The key [objects.create] stores a new row under: one past the largest
    key in use. *)
Definition fresh_pk (tbl : gmap Z A) : Z :=
  1 + map_fold (λ k _ acc, Z.max k acc) 0 tbl.

End objects.

(** The keyword lookups the views use: [token=...], [user=..., token=...]
    and [email=...]. *)
Definition by_token (tok : string) (r : OneTimeToken) : bool :=
  String.eqb (token r) tok.

Definition by_user_and_token (uid : Z) (tok : string) (r : OneTimeToken) : bool :=
  Z.eqb (user r) uid && String.eqb (token r) tok.

Definition by_email (e : string) (u : User) : bool :=
  String.eqb (email u) e.

(** ** The revocation ledger *)

Module Ledger.

(** Modelled from the spec: the Revocation Ledger (the token blacklist
    tables belong to the JWT package, not to [accounts/views.py]).
    [record] marks a token identifier as outstanding; an identifier the
    ledger already knows keeps its entry. *)
Definition record (tokenId subjectId : Z) (l : gmap Z RevocationEntry)
    : gmap Z RevocationEntry :=
  match l !! tokenId with
  | Some _ => l
  | None => <[tokenId := mkEntry (Some subjectId) outstanding]> l
  end.

(** Modelled from the spec: the Revocation Ledger's [blacklist], which
    marks an identifier revoked and inserts an entry for an identifier it
    has not seen. *)
Definition blacklist (tokenId : Z) (l : gmap Z RevocationEntry)
    : gmap Z RevocationEntry :=
  match l !! tokenId with
  | Some e => <[tokenId := mkEntry (subject e) blacklisted]> l
  | None => <[tokenId := mkEntry None blacklisted]> l
  end.

(** Modelled from the spec: the Revocation Ledger's [isBlacklisted]. *)
Definition isBlacklisted (tokenId : Z) (l : gmap Z RevocationEntry) : bool :=
  match l !! tokenId with
  | Some (mkEntry _ blacklisted) => true
  | _ => false
  end.

End Ledger.

(** ** Responses *)

Inductive value :=
| Str (s : string)
| Tok (b : bearer).

(** The response envelopes: [{message, data}] on success,
    [{error_code, error_message, details}] on error, where [details] holds
    the value whose [str()] the source puts in the one-element list. *)
Inductive body :=
| SuccessBody (message : string) (payload : list (string * value))
| ErrorBody (error_code error_message : string) (details : option exn)
| NoBody.

Record Response := mkResponse {
  data : body;
  status_code : Z
}.

Definition HTTP_200_OK : Z := 200.
Definition HTTP_204_NO_CONTENT : Z := 204.
Definition HTTP_400_BAD_REQUEST : Z := 400.
Definition HTTP_404_NOT_FOUND : Z := 404.
Definition HTTP_500_INTERNAL_SERVER_ERROR : Z := 500.

Definition handle_exception_response (error_code error_message : string)
    (details : option exn) (status_response : Z) : Response :=
  mkResponse (ErrorBody error_code error_message details) status_response.

Definition handle_success_response (message : string)
    (payload : list (string * value)) : Response :=
  mkResponse (SuccessBody message payload) HTTP_200_OK.

(** The keys of a response's [data] dictionary. *)
Definition response_keys (r : Response) : list string :=
  match data r with
  | SuccessBody _ payload => payload.*1
  | _ => []
  end.

Definition error_code_of (r : Response) : option string :=
  match data r with
  | ErrorBody c _ _ => Some c
  | _ => None
  end.

(** The error code a view answers with; there is none when the view
    raises instead of answering. *)
Definition error_code_of_result (r : result Response) : option string :=
  match r with
  | Ok resp => error_code_of resp
  | Raise _ => None
  end.

(** ** Permissions *)

Inductive permission := AllowAny | IsAuthenticated.

Definition permission_classes_dict : gmap string (list permission) :=
  list_to_map
    [ ("login", [AllowAny]);
      ("register", [AllowAny]);
      ("verify_email", [AllowAny]);
      ("reset_password", [AllowAny]);
      ("send_password_reset_token", [AllowAny]);
      ("change_password", [IsAuthenticated]);
      ("get_profile", [IsAuthenticated]);
      ("update_profile", [IsAuthenticated]);
      ("refresh_token", [IsAuthenticated]);
      ("logout", [IsAuthenticated]) ].

Definition get_permissions (action : string) : list permission :=
  default [IsAuthenticated] (permission_classes_dict !! action).

Definition has_permission (p : permission) (u : request_user) : bool :=
  match p with
  | AllowAny => true
  | IsAuthenticated => bool_decide (is_Some u)
  end.

Definition check_permissions (action : string) (u : request_user) : bool :=
  forallb (λ p, has_permission p u) (get_permissions action).

(** ** Request data *)

Record AuthData := mkAuthData {
  auth_email : string;
  auth_password : string
}.

Record RegisterData := mkRegisterData {
  reg_email : string;
  reg_password : string;
  reg_profile : gmap string string
}.

Record PasswordResetData := mkPasswordResetData {
  reset_token : option string;
  reset_new_password : option string
}.

(** Python truthiness of an optional query parameter: absent and the
    empty string are both false. *)
Definition truthy (p : option bearer) : bool :=
  match p with
  | None => false
  | Some (Garbage "") => false
  | Some _ => true
  end.

(** An optional query parameter as an [if] statement sees it: supplied
    when it is truthy. *)
Definition supplied (p : option bearer) : option bearer :=
  if truthy p then p else None.

(** Reading a local variable that no assignment has reached. *)
Definition local_var {A} (name : string) (v : option A) : M A :=
  match v with
  | Some a => ret a
  | None => raise (UnboundLocalError name)
  end.

(** The collaborators the views are written against: the password hasher
    and the password policy (Django's), the random token generator of
    [accounts/utils.py], and the token lifetimes of the settings. *)
Class Collaborators := {
  make_password : string → string;
  check_password : string → string → bool;
  validate_password : string → bool;
  token_generator_and_check_if_exists : gmap Z OneTimeToken → string;
  ACCESS_TOKEN_LIFETIME : Z;
  REFRESH_TOKEN_LIFETIME : Z
}.

Section AuthViewSet.
Context `{Collaborators}.

(** *** Token classes *)

(** Modelled from the spec: the Token Codec's [issue], which embeds the
    subject, a fresh token identifier, the issue instant and the expiry
    [issued-at + ttl]. *)
Definition issue (subject : Z) (kind : token_type) (ttl : Z) : M Token :=
  st <- get_db;;
  let t := mkToken kind subject (next_jti st) (clock st) (clock st + ttl) in
  modify (set_next_jti (next_jti st + 1));;
  ret t.

(** Modelled from the spec: the Token Codec's [decode], which rejects a
    token that is malformed or whose expiry has passed. *)
Definition decode (raw : bearer) : M Token :=
  match raw with
  | Garbage _ => raise (TokenError "MalformedToken")
  | Signed t =>
      now <- timezone_now;;
      if now >? exp t then raise (TokenError "ExpiredToken") else ret t
  end.

(** Modelled from the spec: constructing a token object of class [kind]
    from a string, the credential-validating operation: the string must
    decode, be of that kind, and its identifier must not be blacklisted. *)
Definition validate (kind : token_type) (raw : bearer) : M Token :=
  t <- decode raw;;
  st <- get_db;;
  if negb (bool_decide (typ t = kind)) then raise (TokenError "WrongTokenType")
  else if Ledger.isBlacklisted (jti t) (ledger st)
       then raise (TokenError "Blacklisted")
       else ret t.

(** [RefreshToken(raw)] and [AccessToken(raw)]: the two token classes the
    views construct from request parameters. *)
Definition RefreshToken (raw : bearer) : M Token := validate Refresh raw.

Definition AccessToken (raw : bearer) : M Token := validate Access raw.

(** Modelled from the spec: [RefreshToken.for_user], which issues a
    refresh token for the account and records it as outstanding. *)
Definition RefreshToken_for_user (u : instance User) : M Token :=
  t <- issue u.1 Refresh REFRESH_TOKEN_LIFETIME;;
  modify (set_ledger (Ledger.record (jti t) u.1));;
  ret t.

(** Modelled from the spec: the [access_token] property, the codec's
    [deriveAccessFromRefresh]: a fresh access token for the same subject. *)
Definition access_token (t : Token) : M Token :=
  issue (user_id t) Access ACCESS_TOKEN_LIFETIME.

(** Modelled from the spec: [token.blacklist()] on a refresh token, the
    ledger's [blacklist] on the token's identifier.  The method belongs
    to the refresh token class of the JWT package; the access token class
    that [views.py] imports from it has no [blacklist], so the call on an
    access token raises [AttributeError]. *)
Definition blacklist (t : Token) : M unit :=
  match typ t with
  | Refresh => modify (set_ledger (Ledger.blacklist (jti t)))
  | Access => raise AttributeError
  end.

(** *** Model instances *)

(** [user.save()]. *)
Definition save (u : instance User) : M unit :=
  modify (set_User_objects (insert u.1 u.2)).

(** [user.set_password(raw)]. *)
Definition set_password (raw : string) (u : instance User) : instance User :=
  (u.1, mkUser (email u.2) (make_password raw) (is_verified u.2) (profile u.2)).

Definition set_is_verified (b : bool) (u : instance User) : instance User :=
  (u.1, mkUser (email u.2) (password u.2) b (profile u.2)).

(** [user.set_password(raw); user.save()] on the request's user; an
    [AnonymousUser] does not implement [set_password]. *)
Definition set_password_and_save (raw : string) (u : request_user) : M unit :=
  match u with
  | Some user => save (set_password raw user)
  | None => raise NotImplementedError
  end.

(** Following the foreign key [token.user]. *)
Definition related_user (o : instance OneTimeToken) : M (instance User) :=
  st <- get_db;;
  match User_objects st !! user o.2 with
  | Some u => ret (user o.2, u)
  | None => raise (DoesNotExist UserModel)
  end.

Definition User_objects_get_by_email (e : string) : M (instance User) :=
  st <- get_db;;
  objects_get UserModel (by_email e) (User_objects st).

(** *** Serializers *)

(** Modelled from the spec: [AuthUserSerializer] (accounts/serializers.py
    is not among the sources), whose validated data is the account the
    credentials match through the hasher's verify. *)
Definition AuthUserSerializer (d : AuthData) : M (instance User) :=
  st <- get_db;;
  match objects_filter (by_email (auth_email d)) (User_objects st) with
  | [u] => if check_password (auth_password d) (password u.2)
           then ret u else raise ValidationError
  | _ => raise ValidationError
  end.

(** Modelled from the spec: [UserRegisterSerializer], which accepts an
    email that is not yet registered and a password that meets the
    policy, and whose [save] creates the unverified account. *)
Definition UserRegisterSerializer (d : RegisterData) : M (instance User) :=
  st <- get_db;;
  match objects_filter (by_email (reg_email d)) (User_objects st) with
  | [] =>
      if validate_password (reg_password d) then
        let u := (fresh_pk (User_objects st),
                  mkUser (reg_email d) (make_password (reg_password d))
                         false (reg_profile d)) in
        save u;;
        ret u
      else raise ValidationError
  | _ => raise ValidationError
  end.

(** Modelled from the spec: the one-field serializers
    ([EmailVerificationSerializer], [PasswordResetTokenSerializer],
    [ChangePasswordSerializer], [RefreshTokenRequestSerializer]) require
    their field to be present. *)
Definition required_field {A} (v : option A) : M A :=
  match v with
  | Some a => ret a
  | None => raise ValidationError
  end.

(** Modelled from the spec: [PasswordResetSerializer], with the two
    required fields [token] and [new_password]. *)
Definition PasswordResetSerializer (d : PasswordResetData) : M (string * string) :=
  t <- required_field (reset_token d);;
  p <- required_field (reset_new_password d);;
  ret (t, p).

(** Modelled from the spec: what [AccountProfileSerializer] shows of an
    account, the profile fields without the password hash. *)
Definition AccountProfileSerializer_data (u : instance User) : list (string * value) :=
  ("email", Str (email u.2)) :: (prod_map id Str <$> map_to_list (profile u.2)).

(** [objects.create(token=..., user=...)] on a one-time token table; the
    creation timestamp is the current time. *)
Definition create_token (t : string) (u : instance User)
    (tbl : gmap Z OneTimeToken) (now : datetime) : gmap Z OneTimeToken :=
  <[fresh_pk tbl := mkOneTimeToken t u.1 now]> tbl.

(** *** The views *)

Definition INTERNAL_SERVER_ERROR (e : exn) : Response :=
  handle_exception_response "INTERNAL_SERVER_ERROR"
    "An internal server error occurred" (Some e) HTTP_500_INTERNAL_SERVER_ERROR.

Definition VALIDATION_ERROR (e : exn) : Response :=
  handle_exception_response "VALIDATION_ERROR" "Validation Failed" (Some e)
    HTTP_400_BAD_REQUEST.

(** [login]: the [try] block either returns the not-verified response or
    falls through with [refresh] bound; the success response is built
    after the block. *)
Definition login (request_data : AuthData) : M Response :=
  r <- try_except
         (user <- AuthUserSerializer request_data;;
          refresh <- RefreshToken_for_user user;;
          if negb (is_verified user.2) then
            ret (inl (handle_exception_response "NOT_VERIFIED"
                        "User's email is not verified." None
                        HTTP_400_BAD_REQUEST))
          else ret (inr refresh))
         (λ e, match e with
               | ValidationError => ret (inl (VALIDATION_ERROR e))
               | _ => ret (inl (INTERNAL_SERVER_ERROR e))
               end);;
  match r with
  | inl response => ret response
  | inr refresh =>
      a <- access_token refresh;;
      ret (handle_success_response "Login successful."
             [("refresh", Tok (Signed refresh)); ("access", Tok (Signed a))])
  end.

Definition register (request_data : RegisterData) : M Response :=
  try_except
    (user <- UserRegisterSerializer request_data;;
     refresh <- RefreshToken_for_user user;;
     st <- get_db;;
     let email_verification_token :=
       token_generator_and_check_if_exists (EmailVerificationToken_objects st) in
     now <- timezone_now;;
     modify (set_EmailVerificationToken_objects
               (λ tbl, create_token email_verification_token user tbl now));;
     a <- access_token refresh;;
     ret (handle_success_response "User registered successfully."
            [("refresh", Tok (Signed refresh)); ("access", Tok (Signed a));
             ("email_verification_token", Str email_verification_token)]))
    (λ e, match e with
          | ValidationError => ret (VALIDATION_ERROR e)
          | _ => ret (INTERNAL_SERVER_ERROR e)
          end).

(** [verify_email]: the serializer runs before the [try] block, so its
    [ValidationError] leaves the view. *)
Definition verify_email (query_token : option string) : M Response :=
  tok <- required_field query_token;;
  try_except
    (st <- get_db;;
     email_verification_token <-
       objects_get EmailVerificationToken (by_token tok)
                   (EmailVerificationToken_objects st);;
     now <- timezone_now;;
     if created_at email_verification_token.2 + timedelta 24 >? now then
       u <- related_user email_verification_token;;
       let user := set_is_verified true u in
       save user;;
       modify (set_EmailVerificationToken_objects
                 (delete email_verification_token.1));;
       refresh <- RefreshToken_for_user user;;
       a <- access_token refresh;;
       ret (mkResponse
              (SuccessBody "Email verified successfully"
                 [("refresh", Tok (Signed refresh)); ("access", Tok (Signed a));
                  ("user", Str (email user.2))])
              HTTP_200_OK)
     else
       ret (handle_exception_response "EXPIRED_TOKEN"
              "Invalid or expired verification token." None
              HTTP_400_BAD_REQUEST))
    (λ e, match e with
          | DoesNotExist EmailVerificationToken =>
              ret (handle_exception_response "INVALID_TOKEN"
                     "Invalid or expired verification token." None
                     HTTP_400_BAD_REQUEST)
          | _ => ret (INTERNAL_SERVER_ERROR e)
          end).

Definition USER_NOT_FOUND : Response :=
  handle_exception_response "USER_NOT_FOUND" "User not found" None
    HTTP_404_NOT_FOUND.

Definition get_profile (request_user : instance User) : M Response :=
  try_except
    (profile <- User_objects_get_by_email (email request_user.2);;
     ret (handle_success_response "User profile retrieved successfully."
            (AccountProfileSerializer_data profile)))
    (λ e, match e with
          | DoesNotExist UserModel => ret USER_NOT_FOUND
          | _ => ret (INTERNAL_SERVER_ERROR e)
          end).

(** [update_profile]: a partial update, the fields of the request
    replacing the stored ones of the same name. *)
Definition update_profile (request_user : instance User)
    (request_data : gmap string string) : M Response :=
  try_except
    (p <- User_objects_get_by_email (email request_user.2);;
     let p' := (p.1, mkUser (email p.2) (password p.2) (is_verified p.2)
                            (request_data ∪ profile p.2)) in
     save p';;
     ret (handle_success_response "User profile updated successfully."
            (AccountProfileSerializer_data p')))
    (λ e, match e with
          | DoesNotExist UserModel => ret USER_NOT_FOUND
          | _ => ret (INTERNAL_SERVER_ERROR e)
          end).

Definition change_password (request_user : instance User)
    (request_new_password : option string) : M Response :=
  try_except
    (new_password <- required_field request_new_password;;
     save (set_password new_password request_user);;
     ret (mkResponse NoBody HTTP_204_NO_CONTENT))
    (λ e, match e with
          | ValidationError => ret (VALIDATION_ERROR e)
          | DoesNotExist PasswordResetToken =>
              ret (handle_exception_response "INVALID_TOKEN"
                     "Invalid or expired verification token" None
                     HTTP_400_BAD_REQUEST)
          | _ => raise e
          end).

(** Django's [logout(request)] flushes the session, which is no part of
    the database modelled here. *)
Definition auth_logout : M unit := ret tt.

(** [logout]: each of the three [if] statements runs in turn inside one
    [try] block; the session logout and the success response come after
    the block. *)
Definition logout (request_user : instance User)
    (refresh_token access_token_param : option bearer) : M Response :=
  r <- try_except
         (match supplied refresh_token with
          | Some raw => token <- RefreshToken raw;; blacklist token
          | None => ret tt
          end;;
          match supplied access_token_param with
          | Some raw => token <- AccessToken raw;; blacklist token
          | None => ret tt
          end;;
          (if negb (truthy refresh_token) && negb (truthy access_token_param) then
             tokens <- RefreshToken_for_user request_user;;
             a <- access_token tokens;;
             blacklist a;;
             blacklist tokens
           else ret tt);;
          ret None)
         (λ e, match e with
               | TokenError _ =>
                   ret (Some (handle_exception_response "INVALID_REFRESH_TOKEN"
                                "Invalid or expired token" (Some e)
                                HTTP_400_BAD_REQUEST))
               | _ => ret (Some (INTERNAL_SERVER_ERROR e))
               end);;
  match r with
  | Some response => ret response
  | None =>
      auth_logout;;
      ret (handle_success_response "Successfully logged out." [])
  end.

Definition send_password_reset_token (query_email : option string) : M Response :=
  address <- required_field query_email;;
  try_except
    (user <- User_objects_get_by_email address;;
     st <- get_db;;
     let password_reset_token :=
       token_generator_and_check_if_exists (PasswordResetToken_objects st) in
     now <- timezone_now;;
     modify (set_PasswordResetToken_objects
               (λ tbl, create_token password_reset_token user tbl now));;
     ret (handle_success_response "Password reset token sent to your email."
            [("token", Str password_reset_token)]))
    (λ e, match e with
          | DoesNotExist UserModel => ret USER_NOT_FOUND
          | _ => raise e
          end).

(** [PasswordResetToken.objects.get(user=user, token=...)] with the
    request's user as the foreign-key value: Django refuses an
    [AnonymousUser] there with a [TypeError]. *)
Definition PasswordResetToken_objects_get (u : request_user) (t : string)
    : M (instance OneTimeToken) :=
  match u with
  | None => raise TypeError
  | Some u =>
      st <- get_db;;
      objects_get PasswordResetToken (by_user_and_token u.1 t)
        (PasswordResetToken_objects st)
  end.

(** [reset_password].  The name [e] is local to the function because the
    [except ... as e] clauses bind it; the first [try] block either
    returns from its handler or leaves [e] unassigned, so in the second
    block's [DoesNotExist] handler, which has no [as e] of its own, [e]
    is unbound when the arguments of [handle_exception_response] are
    evaluated.  An exception raised inside a handler is not seen by the
    sibling [except] clauses. *)
Definition reset_password (request_user : request_user)
    (request_data : PasswordResetData) : M Response :=
  v <- try_except
         (d <- PasswordResetSerializer request_data;; ret (inr d))
         (λ e, match e with
               | ValidationError => ret (inl (VALIDATION_ERROR e))
               | _ => raise e
               end);;
  match v with
  | inl response => ret response
  | inr (password_reset_token, new_password) =>
      let e : option exn := None in
      try_except
        (token_obj <-
           PasswordResetToken_objects_get request_user password_reset_token;;
         now <- timezone_now;;
         if created_at token_obj.2 + timedelta 24 >? now then
           set_password_and_save new_password request_user;;
           modify (set_PasswordResetToken_objects (delete token_obj.1));;
           ret (mkResponse NoBody HTTP_204_NO_CONTENT)
         else
           ret (handle_exception_response "INVALID_TOKEN"
                  "Password reset token has expired." None
                  HTTP_400_BAD_REQUEST))
        (λ exc, match exc with
                | DoesNotExist PasswordResetToken =>
                    details <- local_var "e" e;;
                    ret (handle_exception_response "INVALID_TOKEN"
                           "Invalid or expired password reset token"
                           (Some details) HTTP_400_BAD_REQUEST)
                | TypeError => ret (VALIDATION_ERROR exc)
                | _ => ret (INTERNAL_SERVER_ERROR exc)
                end)
  end.

Definition refresh_token (request_data : option bearer) : M Response :=
  try_except
    (refresh_token <- required_field request_data;;
     t <- RefreshToken refresh_token;;
     a <- access_token t;;
     ret (handle_success_response "Access token successfully refreshed."
            [("token", Tok (Signed a))]))
    (λ e, match e with
          | TokenError _ =>
              ret (handle_exception_response "INVALID_REFRESH_TOKEN"
                     "Invalid or expired refresh token" (Some e)
                     HTTP_400_BAD_REQUEST)
          | _ => raise e
          end).

End AuthViewSet.

(** ** Runs of the service *)

(** A request to one of the ten actions.  The actions that
    [get_permissions] guards with [IsAuthenticated] receive the
    authenticated account. *)
Inductive request :=
| Login (d : AuthData)
| Register (d : RegisterData)
| VerifyEmail (query_token : option string)
| GetProfile (u : instance User)
| UpdateProfile (u : instance User) (d : gmap string string)
| ChangePassword (u : instance User) (new_password : option string)
| Logout (u : instance User) (refresh_param access_param : option bearer)
| SendPasswordResetToken (query_email : option string)
| ResetPassword (u : request_user) (d : PasswordResetData)
| RefreshTokenRequest (d : option bearer).

(** What happens to the service: a request is served, or time passes. *)
Inductive event :=
| Serve (r : request)
| Tick (dt : N).

Definition dispatch `{Collaborators} (r : request) : M Response :=
  match r with
  | Login d => login d
  | Register d => register d
  | VerifyEmail t => verify_email t
  | GetProfile u => get_profile u
  | UpdateProfile u d => update_profile u d
  | ChangePassword u p => change_password u p
  | Logout u r a => logout u r a
  | SendPasswordResetToken e => send_password_reset_token e
  | ResetPassword u d => reset_password u d
  | RefreshTokenRequest d => refresh_token d
  end.

Definition step `{Collaborators} (e : event) (st : db) : db :=
  match e with
  | Serve r => (dispatch r st).2
  | Tick dt => set_clock (clock st + Z.of_N dt) st
  end.

Fixpoint run `{Collaborators} (es : list event) (st : db) : db :=
  match es with
  | [] => st
  | e :: es' => run es' (step e st)
  end.

(** ** A sample deployment *)

Definition sample_collaborators : Collaborators := {|
  make_password := λ raw, "hash:" ++ raw;
  check_password := λ raw hashed, String.eqb hashed ("hash:" ++ raw);
  validate_password := λ raw, (8 <=? String.length raw)%nat;
  token_generator_and_check_if_exists :=
    λ tbl, "t" ++ pretty (fresh_pk tbl);
  ACCESS_TOKEN_LIFETIME := minutes 5;
  REFRESH_TOKEN_LIFETIME := timedelta 24
|}.

Definition empty_db : db := mkDb ∅ ∅ ∅ ∅ 1 0.

Definition alice : RegisterData := mkRegisterData "a@x.com" "Passw0rd!" ∅.

Definition alice_login : AuthData := mkAuthData "a@x.com" "Passw0rd!".

(** The database after Alice has registered at time 0. *)
Definition registered_db : db :=
  (register (H := sample_collaborators) alice empty_db).2.

Definition bob : RegisterData := mkRegisterData "b@x.com" "hunter2hunter2" ∅.

Definition alice_user : instance User :=
  (1, mkUser "a@x.com" "hash:Passw0rd!" true ∅).

Definition bob_user : instance User :=
  (2, mkUser "b@x.com" "hash:hunter2hunter2" false ∅).

(** Alice and Bob have registered and Alice has verified her address, all
    at time 0; one hour later Alice has asked for a password reset token. *)
Definition reset_requested_db : db :=
  run (H := sample_collaborators)
    [Serve (Register alice); Serve (Register bob);
     Serve (VerifyEmail (Some "t1")); Tick (Z.to_N (timedelta 1));
     Serve (SendPasswordResetToken (Some "a@x.com"))]
    empty_db.

Definition alice_reset : PasswordResetData :=
  mkPasswordResetData (Some "t1") (Some "N3wPassw0rd!").

(** The refresh token Alice received on registering. *)
Definition alice_refresh : Token := mkToken Refresh 1 1 0 (timedelta 24).

(** Alice has registered and then logged out with her refresh token. *)
Definition logged_out_db : db :=
  run (H := sample_collaborators)
    [Serve (Register alice);
     Serve (Logout alice_user (Some (Signed alice_refresh)) None)]
    empty_db.

(** ** Vocabulary of the properties *)

(** The HTTP status a view answers with; there is none when the view
    raises instead of answering. *)
Definition status_of_result (r : result Response) : option Z :=
  match r with
  | Ok resp => Some (status_code resp)
  | Raise _ => None
  end.

(** A string is usable as a token of class [kind] when it is signed, not
    past its expiry, of that class, and its identifier is not blacklisted. *)
Definition usable (kind : token_type) (raw : bearer) (st : db) : bool :=
  match raw with
  | Garbage _ => false
  | Signed t =>
      (clock st <=? exp t)%Z && bool_decide (typ t = kind)
      && negb (Ledger.isBlacklisted (jti t) (ledger st))
  end.

(** Every identifier blacklisted in [l] is blacklisted in [l']. *)
Definition ledger_grows (l l' : gmap Z RevocationEntry) : Prop :=
  ∀ j, Ledger.isBlacklisted j l = true → Ledger.isBlacklisted j l' = true.

(** A computation that never takes an identifier off the blacklist. *)
Definition keeps_blacklist {A} (c : M A) : Prop :=
  ∀ st, ledger_grows (ledger st) (ledger (c st).2).

(** The accounts, the one-time tokens and the clock of [st'] are those of
    [st]: only the ledger and the identifier counter may differ. *)
Definition same_accounts (st st' : db) : Prop :=
  User_objects st' = User_objects st
  ∧ EmailVerificationToken_objects st' = EmailVerificationToken_objects st
  ∧ PasswordResetToken_objects st' = PasswordResetToken_objects st
  ∧ clock st' = clock st.

(** A computation that writes to the ledger and the counter at most. *)
Definition keeps_accounts {A} (c : M A) : Prop :=
  ∀ st, same_accounts st (c st).2.


(** The actions [get_permissions] opens to callers who are not
    authenticated. *)
Definition open_actions : list string :=
  ["login"; "register"; "verify_email"; "reset_password";
   "send_password_reset_token"].

(** Alice has registered and verified her address. *)
Definition verified_db : db :=
  run (H := sample_collaborators)
    [Serve (Register alice); Serve (VerifyEmail (Some "t1"))] empty_db.

Definition carol : RegisterData := mkRegisterData "c@x.com" "Tr0ub4dor&3" ∅.

(** * Properties *)

(** ** The object manager *)

Section objects_facts.
Context {A : Type} (q : A → bool).

Lemma objects_filter_singleton (tbl : gmap Z A) k r :
  objects_filter q tbl = [(k, r)] →
  filter (λ kr, q kr.2 = true) tbl = {[k := r]}.
Proof.
  unfold objects_filter. intros Hl.
  rewrite <- (list_to_map_to_list (filter _ tbl)), Hl. reflexivity.
Qed.

Lemma objects_filter_elem (tbl : gmap Z A) k r :
  (k, r) ∈ objects_filter q tbl ↔ tbl !! k = Some r ∧ q r = true.
Proof.
  unfold objects_filter.
  rewrite elem_of_map_to_list, map_lookup_filter_Some. reflexivity.
Qed.

Lemma objects_filter_lookup (tbl : gmap Z A) k r :
  objects_filter q tbl = [(k, r)] → tbl !! k = Some r ∧ q r = true.
Proof.
  intros Hl. apply objects_filter_elem. rewrite Hl. apply list_elem_of_here.
Qed.

(** Deleting the one row a lookup matches leaves nothing to match. *)
Lemma objects_filter_delete (tbl : gmap Z A) k r :
  objects_filter q tbl = [(k, r)] → objects_filter q (delete k tbl) = [].
Proof.
  intros Hl. unfold objects_filter.
  rewrite map_filter_delete, (objects_filter_singleton _ _ _ Hl).
  rewrite delete_singleton_eq. apply map_to_list_empty.
Qed.

(** Saving the matched row with fields the lookup does not read keeps it
    the only match. *)
Lemma objects_filter_insert (tbl : gmap Z A) k r r' :
  objects_filter q tbl = [(k, r)] → q r' = true →
  objects_filter q (<[k := r']> tbl) = [(k, r')].
Proof.
  intros Hl Hq. unfold objects_filter.
  rewrite map_filter_insert_True by exact Hq.
  rewrite (objects_filter_singleton _ _ _ Hl), insert_singleton_eq.
  apply map_to_list_singleton.
Qed.

Lemma objects_filter_nil (tbl : gmap Z A) :
  objects_filter q tbl = [] ↔ ∀ k r, tbl !! k = Some r → q r = false.
Proof.
  split.
  - intros Hl k r Hk. destruct (q r) eqn:Hq; [|done].
    assert ((k, r) ∈ objects_filter q tbl) as Hin
      by (apply objects_filter_elem; done).
    rewrite Hl in Hin. inversion Hin.
  - intros Hall. destruct (objects_filter q tbl) as [|[k r] l] eqn:Hl; [done|].
    assert ((k, r) ∈ objects_filter q tbl) as Hin by (rewrite Hl; left).
    apply objects_filter_elem in Hin as [Hk Hq].
    rewrite (Hall _ _ Hk) in Hq. done.
Qed.

End objects_facts.

Section properties.
Context `{Collaborators}.

Ltac run_monad :=
  unfold bind, try_except, ret, raise, modify, get_db, timezone_now,
    required_field, local_var in *;
  simpl in *.

(** ** [verify_email], branch by branch *)

Lemma verify_email_missing st tok :
  objects_filter (by_token tok) (EmailVerificationToken_objects st) = [] →
  verify_email (Some tok) st =
    (Ok (handle_exception_response "INVALID_TOKEN"
           "Invalid or expired verification token." None HTTP_400_BAD_REQUEST),
     st).
Proof.
  intros Hl. unfold verify_email, objects_get, by_token in *. run_monad.
  rewrite Hl. reflexivity.
Qed.

Lemma verify_email_expired st tok k r :
  objects_filter (by_token tok) (EmailVerificationToken_objects st) = [(k, r)] →
  created_at r + timedelta 24 ≤ clock st →
  verify_email (Some tok) st =
    (Ok (handle_exception_response "EXPIRED_TOKEN"
           "Invalid or expired verification token." None HTTP_400_BAD_REQUEST),
     st).
Proof.
  intros Hl Hle. unfold verify_email, objects_get, by_token in *. run_monad.
  rewrite Hl. simpl.
  destruct (Z.gtb_spec (created_at r + timedelta 24) (clock st)); [lia|].
  reflexivity.
Qed.

Lemma verify_email_accepts st tok k r u :
  objects_filter (by_token tok) (EmailVerificationToken_objects st) = [(k, r)] →
  User_objects st !! user r = Some u →
  clock st < created_at r + timedelta 24 →
  ∃ rt at' st',
    verify_email (Some tok) st =
      (Ok (mkResponse
             (SuccessBody "Email verified successfully"
                [("refresh", Tok (Signed rt)); ("access", Tok (Signed at'));
                 ("user", Str (email u))])
             HTTP_200_OK), st')
    ∧ typ rt = Refresh ∧ user_id rt = user r
    ∧ typ at' = Access ∧ user_id at' = user r
    ∧ User_objects st' =
        <[user r := mkUser (email u) (password u) true (profile u)]>
          (User_objects st)
    ∧ EmailVerificationToken_objects st' =
        delete k (EmailVerificationToken_objects st)
    ∧ PasswordResetToken_objects st' = PasswordResetToken_objects st
    ∧ clock st' = clock st.
Proof.
  intros Hl Hu Hlt.
  unfold verify_email, objects_get, by_token, related_user, save,
    RefreshToken_for_user, access_token, issue in *.
  run_monad. rewrite Hl. simpl.
  destruct (Z.gtb_spec (created_at r + timedelta 24) (clock st)); [|lia].
  rewrite Hu. simpl.
  eexists _, _, _. split; [reflexivity|]. simpl. tauto.
Qed.

Lemma verify_email_success_inv st qt resp st' :
  verify_email qt st = (Ok resp, st') → status_code resp = HTTP_200_OK →
  ∃ tok k r u,
    qt = Some tok
    ∧ objects_filter (by_token tok) (EmailVerificationToken_objects st) = [(k, r)]
    ∧ User_objects st !! user r = Some u
    ∧ clock st < created_at r + timedelta 24.
Proof.
  destruct qt as [tok|]; [|discriminate].
  destruct (objects_filter (by_token tok) (EmailVerificationToken_objects st))
    as [|[k r] [|o l]] eqn:Hl.
  - rewrite verify_email_missing by done. intros [= <- <-]. discriminate.
  - destruct (Z.lt_ge_cases (clock st) (created_at r + timedelta 24)) as [Hlt|Hge].
    + destruct (User_objects st !! user r) as [u|] eqn:Hu.
      * intros _ _. by exists tok, k, r, u.
      * unfold verify_email, objects_get, related_user. run_monad.
        rewrite Hl. simpl.
        destruct (Z.gtb_spec (created_at r + timedelta 24) (clock st)); [|lia].
        rewrite Hu. simpl. intros [= <- <-]. discriminate.
    + rewrite (verify_email_expired _ _ _ _ Hl Hge). intros [= <- <-]. discriminate.
  - unfold verify_email, objects_get. run_monad. rewrite Hl. simpl.
    intros [= <- <-]. discriminate.
Qed.

(** ** [reset_password], branch by branch *)

Lemma reset_password_missing st usr tok pw :
  objects_filter (by_user_and_token usr.1 tok) (PasswordResetToken_objects st) = [] →
  reset_password (Some usr) (mkPasswordResetData (Some tok) (Some pw)) st =
    (Raise (UnboundLocalError "e"), st).
Proof.
  intros Hl.
  unfold reset_password, PasswordResetSerializer,
    PasswordResetToken_objects_get, objects_get.
  run_monad. rewrite Hl. reflexivity.
Qed.

Lemma reset_password_expired st usr tok pw k r :
  objects_filter (by_user_and_token usr.1 tok) (PasswordResetToken_objects st)
    = [(k, r)] →
  created_at r + timedelta 24 ≤ clock st →
  reset_password (Some usr) (mkPasswordResetData (Some tok) (Some pw)) st =
    (Ok (handle_exception_response "INVALID_TOKEN"
           "Password reset token has expired." None HTTP_400_BAD_REQUEST),
     st).
Proof.
  intros Hl Hle.
  unfold reset_password, PasswordResetSerializer,
    PasswordResetToken_objects_get, objects_get.
  run_monad. rewrite Hl. simpl.
  destruct (Z.gtb_spec (created_at r + timedelta 24) (clock st)); [lia|].
  reflexivity.
Qed.

Lemma reset_password_accepts st usr tok pw k r :
  objects_filter (by_user_and_token usr.1 tok) (PasswordResetToken_objects st)
    = [(k, r)] →
  clock st < created_at r + timedelta 24 →
  reset_password (Some usr) (mkPasswordResetData (Some tok) (Some pw)) st =
    (Ok (mkResponse NoBody HTTP_204_NO_CONTENT),
     set_PasswordResetToken_objects (delete k)
       (set_User_objects (insert usr.1 (set_password pw usr).2) st)).
Proof.
  intros Hl Hlt.
  unfold reset_password, PasswordResetSerializer,
    PasswordResetToken_objects_get, objects_get, set_password_and_save, save.
  run_monad. rewrite Hl. simpl.
  destruct (Z.gtb_spec (created_at r + timedelta 24) (clock st)); [|lia].
  reflexivity.
Qed.

Lemma reset_password_anonymous st d :
  ∃ e, reset_password None d st = (Ok (VALIDATION_ERROR e), st).
Proof.
  unfold reset_password, PasswordResetSerializer, PasswordResetToken_objects_get.
  run_monad.
  destruct d as [[tok|] [pw|]]; simpl; eauto.
Qed.

Lemma reset_password_success_inv st u d resp st' :
  reset_password u d st = (Ok resp, st') →
  status_code resp = HTTP_204_NO_CONTENT →
  ∃ usr tok pw k r,
    u = Some usr ∧ d = mkPasswordResetData (Some tok) (Some pw)
    ∧ objects_filter (by_user_and_token usr.1 tok)
        (PasswordResetToken_objects st) = [(k, r)]
    ∧ clock st < created_at r + timedelta 24
    ∧ st' = set_PasswordResetToken_objects (delete k)
              (set_User_objects (insert usr.1 (set_password pw usr).2) st).
Proof.
  destruct u as [usr|].
  2: { destruct (reset_password_anonymous st d) as [e ->].
       intros [= <- <-]. discriminate. }
  destruct d as [[tok|] [pw|]];
    try (unfold reset_password, PasswordResetSerializer; run_monad;
         intros [= <- <-]; discriminate).
  destruct (objects_filter (by_user_and_token usr.1 tok)
              (PasswordResetToken_objects st)) as [|[k r] [|o l]] eqn:Hl.
  - rewrite reset_password_missing by done. discriminate.
  - destruct (Z.lt_ge_cases (clock st) (created_at r + timedelta 24)) as [Hlt|Hge].
    + rewrite (reset_password_accepts _ _ _ _ _ _ Hl Hlt). intros [= <- <-] _.
      by exists usr, tok, pw, k, r.
    + rewrite (reset_password_expired _ _ _ _ _ _ Hl Hge).
      intros [= <- <-]. discriminate.
  - unfold reset_password, PasswordResetSerializer,
      PasswordResetToken_objects_get, objects_get.
    run_monad. rewrite Hl. simpl. intros [= <- <-]. discriminate.
Qed.

(** ** [login], branch by branch *)

Lemma AuthUserSerializer_ok st d uid u :
  objects_filter (by_email (auth_email d)) (User_objects st) = [(uid, u)] →
  check_password (auth_password d) (password u) = true →
  AuthUserSerializer d st = (Ok (uid, u), st).
Proof.
  intros Hl Hp. unfold AuthUserSerializer. run_monad. rewrite Hl. simpl.
  rewrite Hp. reflexivity.
Qed.

Lemma RefreshToken_for_user_run st usr :
  RefreshToken_for_user usr st =
    (Ok (mkToken Refresh usr.1 (next_jti st) (clock st)
           (clock st + REFRESH_TOKEN_LIFETIME)),
     set_ledger (Ledger.record (next_jti st) usr.1)
       (set_next_jti (next_jti st + 1) st)).
Proof. reflexivity. Qed.

Lemma access_token_run st t :
  access_token t st =
    (Ok (mkToken Access (user_id t) (next_jti st) (clock st)
           (clock st + ACCESS_TOKEN_LIFETIME)),
     set_next_jti (next_jti st + 1) st).
Proof. reflexivity. Qed.

Lemma login_unverified st d uid u :
  objects_filter (by_email (auth_email d)) (User_objects st) = [(uid, u)] →
  check_password (auth_password d) (password u) = true →
  is_verified u = false →
  login d st =
    (Ok (handle_exception_response "NOT_VERIFIED"
           "User's email is not verified." None HTTP_400_BAD_REQUEST),
     (RefreshToken_for_user (uid, u) st).2).
Proof.
  intros Hl Hp Hv. unfold login. unfold bind at 1, try_except, bind at 1.
  rewrite (AuthUserSerializer_ok _ _ _ _ Hl Hp).
  unfold bind at 1. rewrite RefreshToken_for_user_run. simpl.
  rewrite Hv. reflexivity.
Qed.

Lemma login_verified st d uid u :
  objects_filter (by_email (auth_email d)) (User_objects st) = [(uid, u)] →
  check_password (auth_password d) (password u) = true →
  is_verified u = true →
  ∃ rt at' st',
    login d st =
      (Ok (handle_success_response "Login successful."
             [("refresh", Tok (Signed rt)); ("access", Tok (Signed at'))]),
       st')
    ∧ typ rt = Refresh ∧ user_id rt = uid
    ∧ typ at' = Access ∧ user_id at' = uid.
Proof.
  intros Hl Hp Hv. unfold login. unfold bind at 1, try_except, bind at 1.
  rewrite (AuthUserSerializer_ok _ _ _ _ Hl Hp).
  unfold bind at 1. rewrite RefreshToken_for_user_run. simpl.
  rewrite Hv. simpl. unfold bind. rewrite access_token_run. simpl.
  eexists _, _, _. split; [reflexivity|]. simpl. tauto.
Qed.

(** ** Token validation *)

Lemma validate_usable st kind raw :
  usable kind raw st = true →
  ∃ t, raw = Signed t ∧ typ t = kind ∧ validate kind raw st = (Ok t, st).
Proof.
  destruct raw as [t|s]; simpl; [|discriminate].
  intros [[Hexp Hk]%andb_prop Hbl]%andb_prop.
  apply Z.leb_le in Hexp. apply bool_decide_eq_true in Hk.
  apply negb_true_iff in Hbl.
  exists t. split; [done|]. split; [done|].
  unfold validate, decode. run_monad.
  destruct (Z.gtb_spec (clock st) (exp t)); [lia|].
  rewrite (bool_decide_eq_true_2 _ Hk), Hbl. reflexivity.
Qed.

Lemma validate_unusable st kind raw :
  usable kind raw st = false →
  ∃ msg, validate kind raw st = (Raise (TokenError msg), st).
Proof.
  destruct raw as [t|s]; simpl.
  - intros Hu. unfold validate, decode. run_monad.
    destruct (Z.gtb_spec (clock st) (exp t)) as [Hgt|Hle]; [eauto|].
    destruct (bool_decide (typ t = kind)) eqn:Hk; simpl; [|eauto].
    destruct (Ledger.isBlacklisted (jti t) (ledger st)) eqn:Hbl; [eauto|].
    apply Z.leb_le in Hle. rewrite Hle in Hu. discriminate.
  - intros _. unfold validate, decode. run_monad. eauto.
Qed.

Lemma usable_blacklisted st kind t :
  Ledger.isBlacklisted (jti t) (ledger st) = true →
  usable kind (Signed t) st = false.
Proof. intros Hbl. simpl. rewrite Hbl. apply andb_false_r. Qed.

Lemma usable_expired st kind t :
  exp t < clock st → usable kind (Signed t) st = false.
Proof.
  intros Hlt. simpl. destruct (Z.leb_spec (clock st) (exp t)); [lia|done].
Qed.

(** ** [refresh_token], branch by branch *)

Lemma refresh_token_rejects st raw :
  usable Refresh raw st = false →
  ∃ e, refresh_token (Some raw) st =
         (Ok (handle_exception_response "INVALID_REFRESH_TOKEN"
                "Invalid or expired refresh token" (Some e)
                HTTP_400_BAD_REQUEST), st).
Proof.
  intros Hu. destruct (validate_unusable _ _ _ Hu) as [msg Hv].
  exists (TokenError msg).
  unfold refresh_token, RefreshToken. unfold try_except, bind at 1. simpl.
  unfold bind at 1. rewrite Hv. reflexivity.
Qed.

Lemma refresh_token_accepts st raw :
  usable Refresh raw st = true →
  ∃ t a st',
    raw = Signed t
    ∧ refresh_token (Some raw) st =
        (Ok (handle_success_response "Access token successfully refreshed."
               [("token", Tok (Signed a))]), st')
    ∧ typ a = Access ∧ user_id a = user_id t.
Proof.
  intros Hu. destruct (validate_usable _ _ _ Hu) as (t & -> & Hk & Hv).
  unfold refresh_token, RefreshToken. unfold try_except, bind at 1. simpl.
  unfold bind at 1. rewrite Hv. unfold bind. rewrite access_token_run. simpl.
  eexists t, _, _. split; [done|]. split; [reflexivity|]. done.
Qed.

(** C5: [refresh_token] answers a refresh token that is blacklisted, past
    its expiry, or not usable for any other reason (it does not decode,
    or it is not a refresh token) with the INVALID_REFRESH_TOKEN error,
    and leaves the database as it was; a usable refresh token is answered
    with an access token that carries the refresh token's subject. *)
Theorem refresh_token_subject st raw :
  (∀ t, raw = Signed t → Ledger.isBlacklisted (jti t) (ledger st) = true →
        usable Refresh raw st = false)
  ∧ (∀ t, raw = Signed t → exp t < clock st → usable Refresh raw st = false)
  ∧ (usable Refresh raw st = false →
     ∃ e, refresh_token (Some raw) st =
            (Ok (handle_exception_response "INVALID_REFRESH_TOKEN"
                   "Invalid or expired refresh token" (Some e)
                   HTTP_400_BAD_REQUEST), st))
  ∧ (usable Refresh raw st = true →
     ∃ t a st',
       raw = Signed t
       ∧ refresh_token (Some raw) st =
           (Ok (handle_success_response "Access token successfully refreshed."
                  [("token", Tok (Signed a))]), st')
       ∧ typ a = Access ∧ user_id a = user_id t).
Proof.
  split; [|split; [|split]].
  - intros t -> Hbl. by apply usable_blacklisted.
  - intros t -> Hlt. by apply usable_expired.
  - apply refresh_token_rejects.
  - apply refresh_token_accepts.
Qed.

(** ** The ledger only grows *)

Lemma isBlacklisted_record j j' s (l : gmap Z RevocationEntry) :
  Ledger.isBlacklisted j (Ledger.record j' s l) = Ledger.isBlacklisted j l.
Proof.
  unfold Ledger.record, Ledger.isBlacklisted.
  destruct (l !! j') as [e|] eqn:Hj'; [done|].
  destruct (decide (j = j')) as [->|Hne].
  - rewrite lookup_insert_eq, Hj'. done.
  - rewrite lookup_insert_ne by done. done.
Qed.

Lemma isBlacklisted_blacklist j j' (l : gmap Z RevocationEntry) :
  Ledger.isBlacklisted j (Ledger.blacklist j' l)
  = bool_decide (j = j') || Ledger.isBlacklisted j l.
Proof.
  unfold Ledger.blacklist, Ledger.isBlacklisted.
  destruct (decide (j = j')) as [->|Hne].
  - rewrite bool_decide_eq_true_2 by done.
    destruct (l !! j'); rewrite lookup_insert_eq; done.
  - rewrite bool_decide_eq_false_2 by done.
    destruct (l !! j'); rewrite lookup_insert_ne by done; done.
Qed.

Lemma ledger_grows_refl l : ledger_grows l l.
Proof. intros j Hj. exact Hj. Qed.

Lemma ledger_grows_trans l1 l2 l3 :
  ledger_grows l1 l2 → ledger_grows l2 l3 → ledger_grows l1 l3.
Proof. intros H12 H23 j Hj. apply H23, H12, Hj. Qed.

Lemma keeps_ret {A} (a : A) : keeps_blacklist (ret a).
Proof. intros st. apply ledger_grows_refl. Qed.

Lemma keeps_raise {A} e : keeps_blacklist (raise (A := A) e).
Proof. intros st. apply ledger_grows_refl. Qed.

Lemma keeps_get_db : keeps_blacklist get_db.
Proof. intros st. apply ledger_grows_refl. Qed.

Lemma keeps_timezone_now : keeps_blacklist timezone_now.
Proof. intros st. apply ledger_grows_refl. Qed.

Lemma keeps_bind {A B} (c : M A) (k : A → M B) :
  keeps_blacklist c → (∀ a, keeps_blacklist (k a)) → keeps_blacklist (bind c k).
Proof.
  intros Hc Hk st. unfold bind. specialize (Hc st).
  destruct (c st) as [[a|e] st1]; simpl in *; [|done].
  eapply ledger_grows_trans; [exact Hc|apply Hk].
Qed.

Lemma keeps_try_except {A} (body : M A) (handler : exn → M A) :
  keeps_blacklist body → (∀ e, keeps_blacklist (handler e)) →
  keeps_blacklist (try_except body handler).
Proof.
  intros Hb Hh st. unfold try_except. specialize (Hb st).
  destruct (body st) as [[a|e] st1]; simpl in *; [done|].
  eapply ledger_grows_trans; [exact Hb|apply Hh].
Qed.

Lemma keeps_modify (f : db → db) :
  (∀ st, ledger_grows (ledger st) (ledger (f st))) → keeps_blacklist (modify f).
Proof. intros Hf st. apply Hf. Qed.

Lemma keeps_objects_get {A} m (q : A → bool) tbl :
  keeps_blacklist (objects_get m q tbl).
Proof.
  unfold objects_get.
  destruct (objects_filter q tbl) as [|o [|o' l]];
    auto using keeps_ret, keeps_raise.
Qed.

Lemma keeps_blacklist_method t : keeps_blacklist (blacklist t).
Proof.
  unfold blacklist. destruct (typ t); [apply keeps_raise|].
  apply keeps_modify. intros st j Hj. simpl.
  rewrite isBlacklisted_blacklist, Hj. apply orb_true_r.
Qed.

Lemma keeps_issue s kind ttl : keeps_blacklist (issue s kind ttl).
Proof. intros st. apply ledger_grows_refl. Qed.

Lemma keeps_RefreshToken_for_user u : keeps_blacklist (RefreshToken_for_user u).
Proof.
  intros st j Hj. rewrite RefreshToken_for_user_run. simpl.
  rewrite isBlacklisted_record. exact Hj.
Qed.

Lemma keeps_validate kind raw : keeps_blacklist (validate kind raw).
Proof.
  intros st. destruct (usable kind raw st) eqn:Hu.
  - destruct (validate_usable _ _ _ Hu) as (t & _ & _ & ->).
    apply ledger_grows_refl.
  - destruct (validate_unusable _ _ _ Hu) as (msg & ->).
    apply ledger_grows_refl.
Qed.

Create HintDb keeps.

#[local] Hint Resolve keeps_ret keeps_raise keeps_get_db keeps_timezone_now
  keeps_objects_get keeps_blacklist_method keeps_issue
  keeps_RefreshToken_for_user keeps_validate ledger_grows_refl : keeps.

(** Walks down a view: a bind or a handler splits into its parts, a
    branch on data is taken both ways, and the leaves are closed from the
    hint database. *)
Ltac keeps :=
  repeat first
    [ progress eauto with keeps
    | apply keeps_bind; [|intros ?]
    | apply keeps_try_except; [|intros ?]
    | apply keeps_modify; intros ?; simpl; apply ledger_grows_refl
    | match goal with
      | |- keeps_blacklist (match ?x with _ => _ end) => destruct x
      | |- keeps_blacklist (if ?b then _ else _) => destruct b
      | |- keeps_blacklist (let _ := _ in _) => cbv zeta
      end ].

Lemma keeps_login d : keeps_blacklist (login d).
Proof. unfold login, AuthUserSerializer, access_token. keeps. Qed.

Lemma keeps_register d : keeps_blacklist (register d).
Proof.
  unfold register, UserRegisterSerializer, access_token, save. keeps.
Qed.

Lemma keeps_verify_email t : keeps_blacklist (verify_email t).
Proof.
  unfold verify_email, required_field, related_user, access_token, save.
  keeps.
Qed.

Lemma keeps_get_profile u : keeps_blacklist (get_profile u).
Proof. unfold get_profile, User_objects_get_by_email. keeps. Qed.

Lemma keeps_update_profile u d : keeps_blacklist (update_profile u d).
Proof. unfold update_profile, User_objects_get_by_email, save. keeps. Qed.

Lemma keeps_change_password u p : keeps_blacklist (change_password u p).
Proof. unfold change_password, required_field, save. keeps. Qed.

Lemma keeps_logout u r a : keeps_blacklist (logout u r a).
Proof.
  unfold logout, RefreshToken, AccessToken, access_token, auth_logout, supplied.
  keeps.
Qed.

Lemma keeps_send_password_reset_token e :
  keeps_blacklist (send_password_reset_token e).
Proof.
  unfold send_password_reset_token, required_field, User_objects_get_by_email.
  keeps.
Qed.

Lemma keeps_reset_password u d : keeps_blacklist (reset_password u d).
Proof.
  unfold reset_password, PasswordResetSerializer, required_field,
    PasswordResetToken_objects_get, set_password_and_save, save, local_var.
  keeps.
Qed.

Lemma keeps_refresh_token d : keeps_blacklist (refresh_token d).
Proof.
  unfold refresh_token, required_field, RefreshToken, access_token. keeps.
Qed.

Lemma keeps_dispatch r : keeps_blacklist (dispatch r).
Proof.
  destruct r; simpl;
    auto using keeps_login, keeps_register, keeps_verify_email,
      keeps_get_profile, keeps_update_profile, keeps_change_password,
      keeps_logout, keeps_send_password_reset_token, keeps_reset_password,
      keeps_refresh_token.
Qed.

Lemma step_ledger_grows e st : ledger_grows (ledger st) (ledger (step e st)).
Proof.
  destruct e as [r|dt]; simpl.
  - apply keeps_dispatch.
  - apply ledger_grows_refl.
Qed.

Lemma run_ledger_grows es st : ledger_grows (ledger st) (ledger (run es st)).
Proof.
  revert st. induction es as [|e es IH]; intros st; simpl.
  - apply ledger_grows_refl.
  - eapply ledger_grows_trans; [apply step_ledger_grows|apply IH].
Qed.

(** ** [logout], branch by branch *)

Ltac run_goal :=
  unfold bind, try_except, ret, raise, modify, get_db, timezone_now,
    required_field, local_var; simpl.

Lemma usable_false_blacklist st kind raw j :
  usable kind raw st = false →
  usable kind raw (set_ledger (Ledger.blacklist j) st) = false.
Proof.
  destruct raw as [t|s]; simpl; [|done].
  rewrite isBlacklisted_blacklist.
  destruct (clock st <=? exp t), (bool_decide (typ t = kind)),
    (Ledger.isBlacklisted (jti t) (ledger st)); simpl; try done.
  intros _. rewrite orb_true_r. reflexivity.
Qed.

Lemma usable_blacklist_other st kind t j :
  jti t ≠ j →
  usable kind (Signed t) (set_ledger (Ledger.blacklist j) st)
  = usable kind (Signed t) st.
Proof.
  intros Hne. simpl. rewrite isBlacklisted_blacklist.
  rewrite (bool_decide_eq_false_2 _ Hne). reflexivity.
Qed.

Lemma logout_refresh_rejected st u raw ap :
  truthy (Some raw) = true → usable Refresh raw st = false →
  ∃ e, logout u (Some raw) ap st =
         (Ok (handle_exception_response "INVALID_REFRESH_TOKEN"
                "Invalid or expired token" (Some e) HTTP_400_BAD_REQUEST), st).
Proof.
  intros Hr Hu. destruct (validate_unusable _ _ _ Hu) as [msg Hv].
  exists (TokenError msg).
  unfold logout, RefreshToken, supplied. rewrite Hr. simpl. run_goal.
  rewrite Hv. reflexivity.
Qed.

Lemma logout_refresh_only st u t ap :
  usable Refresh (Signed t) st = true → truthy ap = false →
  logout u (Some (Signed t)) ap st =
    (Ok (handle_success_response "Successfully logged out." []),
     set_ledger (Ledger.blacklist (jti t)) st).
Proof.
  intros Hu Ha. destruct (validate_usable _ _ _ Hu) as (t' & [= <-] & Hk & Hv).
  unfold logout, RefreshToken, blacklist, auth_logout, supplied. rewrite Ha.
  change (truthy (Some (Signed t))) with true. cbv iota. simpl negb. cbv iota.
  run_goal. rewrite Hv. simpl. rewrite Hk. reflexivity.
Qed.

Lemma logout_access_only st u rp a :
  truthy rp = false → usable Access (Signed a) st = true →
  logout u rp (Some (Signed a)) st =
    (Ok (INTERNAL_SERVER_ERROR AttributeError), st).
Proof.
  intros Hr Hu. destruct (validate_usable _ _ _ Hu) as (t' & [= <-] & Hk & Hv).
  unfold logout, AccessToken, blacklist, auth_logout, supplied. rewrite Hr.
  change (truthy (Some (Signed a))) with true. cbv iota. simpl negb.
  run_goal. rewrite Hv. simpl. rewrite Hk. reflexivity.
Qed.

Lemma logout_access_rejected st u rp raw :
  truthy rp = false → truthy (Some raw) = true →
  usable Access raw st = false →
  ∃ e, logout u rp (Some raw) st =
         (Ok (handle_exception_response "INVALID_REFRESH_TOKEN"
                "Invalid or expired token" (Some e) HTTP_400_BAD_REQUEST), st).
Proof.
  intros Hr Ha Hu. destruct (validate_unusable _ _ _ Hu) as [msg Hv].
  exists (TokenError msg).
  unfold logout, AccessToken, supplied. rewrite Hr, Ha. simpl. run_goal.
  rewrite Hv. reflexivity.
Qed.

Lemma logout_both st u t a :
  usable Refresh (Signed t) st = true →
  usable Access (Signed a) (set_ledger (Ledger.blacklist (jti t)) st) = true →
  logout u (Some (Signed t)) (Some (Signed a)) st =
    (Ok (INTERNAL_SERVER_ERROR AttributeError),
     set_ledger (Ledger.blacklist (jti t)) st).
Proof.
  intros Hu Hu'.
  destruct (validate_usable _ _ _ Hu) as (t' & [= <-] & Hk & Hv).
  destruct (validate_usable _ _ _ Hu') as (a' & [= <-] & Hk' & Hv').
  unfold logout, RefreshToken, AccessToken, blacklist, auth_logout, supplied.
  change (truthy (Some (Signed t))) with true.
  change (truthy (Some (Signed a))) with true. cbv iota. simpl negb.
  run_goal. rewrite Hv. simpl. rewrite Hk. simpl.
  unfold set_ledger in Hv' at 1. simpl in Hv'. unfold set_ledger at 1. simpl.
  rewrite Hv'. simpl. rewrite Hk'. reflexivity.
Qed.

Lemma logout_both_access_rejected st u t raw :
  usable Refresh (Signed t) st = true → truthy (Some raw) = true →
  usable Access raw (set_ledger (Ledger.blacklist (jti t)) st) = false →
  ∃ e, logout u (Some (Signed t)) (Some raw) st =
         (Ok (handle_exception_response "INVALID_REFRESH_TOKEN"
                "Invalid or expired token" (Some e) HTTP_400_BAD_REQUEST),
          set_ledger (Ledger.blacklist (jti t)) st).
Proof.
  intros Hu Ha Hu'.
  destruct (validate_usable _ _ _ Hu) as (t' & [= <-] & Hk & Hv).
  destruct (validate_unusable _ _ _ Hu') as [msg Hv'].
  exists (TokenError msg).
  unfold logout, RefreshToken, AccessToken, blacklist, supplied. rewrite Ha.
  change (truthy (Some (Signed t))) with true. cbv iota. simpl negb.
  run_goal. rewrite Hv. simpl. rewrite Hk. simpl.
  unfold set_ledger in Hv' at 1. simpl in Hv'. unfold set_ledger at 1. simpl.
  rewrite Hv'. reflexivity.
Qed.

Lemma logout_neither st u rp ap :
  truthy rp = false → truthy ap = false →
  logout u rp ap st =
    (Ok (INTERNAL_SERVER_ERROR AttributeError),
     set_next_jti (next_jti st + 1 + 1)
       (set_ledger (Ledger.record (next_jti st) u.1) st)).
Proof.
  intros Hr Ha. unfold logout, supplied. rewrite Hr, Ha. simpl.
  unfold blacklist, access_token, auth_logout. run_goal. reflexivity.
Qed.

Lemma supplied_Some p raw :
  supplied p = Some raw ↔ p = Some raw ∧ truthy (Some raw) = true.
Proof.
  unfold supplied. split.
  - destruct (truthy p) eqn:Hp; [|discriminate]. intros ->. done.
  - intros [-> ->]. done.
Qed.

Lemma supplied_None p : supplied p = None ↔ truthy p = false.
Proof.
  unfold supplied. destruct (truthy p) eqn:Hp; [|done].
  destruct p; [|simpl in Hp; discriminate]. split; discriminate.
Qed.

(** C7, as amended: a refresh token that is supplied and usable is
    blacklisted by [logout], whatever else the call goes on to do; when
    it is the only parameter supplied, [logout] answers the success
    response and the identifiers blacklisted afterwards are those
    blacklisted before and the token's; every answer with status 200 is
    that success response; and a supplied token that is not usable
    yields the INVALID_REFRESH_TOKEN error, for an access token as for a
    refresh token. *)
Theorem logout_blacklists_supplied st u rp ap :
  (∀ t, supplied rp = Some (Signed t) →
        usable Refresh (Signed t) st = true →
        Ledger.isBlacklisted (jti t) (ledger (logout u rp ap st).2) = true)
  ∧ (∀ t, supplied rp = Some (Signed t) →
          usable Refresh (Signed t) st = true →
          supplied ap = None →
          (logout u rp ap st).1 =
            Ok (handle_success_response "Successfully logged out." [])
          ∧ ∀ j, Ledger.isBlacklisted j (ledger (logout u rp ap st).2)
                 = Ledger.isBlacklisted j (ledger st) || bool_decide (j = jti t))
  ∧ (∀ resp, (logout u rp ap st).1 = Ok resp →
             status_code resp = HTTP_200_OK →
             resp = handle_success_response "Successfully logged out." [])
  ∧ (∀ raw,
       (supplied rp = Some raw ∧ usable Refresh raw st = false)
       ∨ (supplied ap = Some raw ∧ usable Access raw st = false) →
       ∃ e, (logout u rp ap st).1 =
              Ok (handle_exception_response "INVALID_REFRESH_TOKEN"
                    "Invalid or expired token" (Some e) HTTP_400_BAD_REQUEST)).
Proof.
  destruct (supplied rp) as [raw_r|] eqn:Hr; destruct (supplied ap) as [raw_a|] eqn:Ha;
    try apply supplied_Some in Hr as [-> Hr];
    try apply supplied_Some in Ha as [-> Ha];
    try apply supplied_None in Hr; try apply supplied_None in Ha.
  - (* both supplied *)
    destruct (usable Refresh raw_r st) eqn:Ur.
    2: { destruct (logout_refresh_rejected st u raw_r (Some raw_a) Hr Ur) as [e He].
         rewrite He. simpl fst. simpl snd. split; [|split; [|split]].
         - intros t [= ->] Hu. congruence.
         - intros t _ _ [=].
         - intros resp [= <-]. discriminate.
         - intros raw _. eauto. }
    destruct (validate_usable _ _ _ Ur) as (t & -> & _ & _).
    assert (Ledger.isBlacklisted (jti t)
              (ledger (set_ledger (Ledger.blacklist (jti t)) st)) = true) as Hbl.
    { simpl. rewrite isBlacklisted_blacklist. by rewrite bool_decide_eq_true_2. }
    destruct (usable Access raw_a (set_ledger (Ledger.blacklist (jti t)) st)) eqn:Ua.
    + destruct (validate_usable _ _ _ Ua) as (a & -> & _ & _).
      rewrite (logout_both _ u _ _ Ur Ua). simpl fst. simpl snd.
      split; [|split; [|split]].
      * by intros t' [= <-] _.
      * intros t' _ _ [=].
      * intros resp [= <-]. discriminate.
      * intros raw [[[= <-] Hu]|[[= <-] Hu]].
        -- rewrite Ur in Hu. discriminate.
        -- apply (usable_false_blacklist _ _ _ (jti t)) in Hu.
           rewrite Ua in Hu. discriminate.
    + destruct (logout_both_access_rejected st u t raw_a Ur Ha Ua) as [e He].
      rewrite He. simpl fst. simpl snd. split; [|split; [|split]].
      * by intros t' [= <-] _.
      * intros t' _ _ [=].
      * intros resp [= <-]. discriminate.
      * intros raw _. eauto.
  - (* the refresh token alone *)
    destruct (usable Refresh raw_r st) eqn:Ur.
    + destruct (validate_usable _ _ _ Ur) as (t & -> & _ & _).
      rewrite (logout_refresh_only _ u _ _ Ur Ha). simpl fst. simpl snd.
      split; [|split; [|split]].
      * intros t' [= <-] _. simpl. rewrite isBlacklisted_blacklist.
        by rewrite bool_decide_eq_true_2.
      * intros t' [= <-] _ _. split; [done|]. intros j. simpl.
        rewrite isBlacklisted_blacklist. apply orb_comm.
      * by intros resp [= <-] _.
      * intros raw [[[= <-] Hu]|[[=] _]]. rewrite Ur in Hu. discriminate.
    + destruct (logout_refresh_rejected st u raw_r ap Hr Ur) as [e He].
      rewrite He. simpl fst. simpl snd. split; [|split; [|split]].
      * intros t [= ->] Hu. congruence.
      * intros t [= ->] Hu. congruence.
      * intros resp [= <-]. discriminate.
      * intros raw _. eauto.
  - (* the access token alone *)
    destruct (usable Access raw_a st) eqn:Ua.
    + destruct (validate_usable _ _ _ Ua) as (a & -> & _ & _).
      rewrite (logout_access_only _ u _ _ Hr Ua). simpl fst. simpl snd.
      split; [|split; [|split]].
      * intros t [=].
      * intros t [=].
      * intros resp [= <-]. discriminate.
      * intros raw [[[=] _]|[[= <-] Hu]]. rewrite Ua in Hu. discriminate.
    + destruct (logout_access_rejected st u rp raw_a Hr Ha Ua) as [e He].
      rewrite He. simpl fst. simpl snd. split; [|split; [|split]].
      * intros t [=].
      * intros t [=].
      * intros resp [= <-]. discriminate.
      * intros raw _. eauto.
  - (* neither *)
    rewrite (logout_neither _ u _ _ Hr Ha). simpl fst. simpl snd. split; [|split; [|split]].
    + intros t [=].
    + intros t [=].
    + intros resp [= <-]. discriminate.
    + intros raw [[[=] _]|[[=] _]].
Qed.

(** ** The claims about one-time tokens *)

(** The first half of C1, for every database: once [verify_email] has
    succeeded on a token string, presenting the string again, at whatever
    time, is answered with INVALID_TOKEN. *)
Lemma verify_email_single_use st qt resp st' now :
  verify_email qt st = (Ok resp, st') → status_code resp = HTTP_200_OK →
  verify_email qt (set_clock now st') =
    (Ok (handle_exception_response "INVALID_TOKEN"
           "Invalid or expired verification token." None HTTP_400_BAD_REQUEST),
     set_clock now st').
Proof.
  intros Hrun Hok.
  destruct (verify_email_success_inv _ _ _ _ Hrun Hok)
    as (tok & k & r & u & -> & Hl & Hu & Hlt).
  destruct (verify_email_accepts _ _ _ _ _ Hl Hu Hlt)
    as (rt & at' & st1 & Hrun' & _ & _ & _ & _ & _ & Hdel & _).
  rewrite Hrun in Hrun'. injection Hrun' as _ <-.
  apply verify_email_missing. simpl. rewrite Hdel.
  eapply objects_filter_delete, Hl.
Qed.

(** The second half of C1, for every database: once [reset_password] has
    succeeded, the same request presented again finds no token row, and
    the handler for that case reads the unbound local [e]: the view
    raises [UnboundLocalError] where it was written to answer
    INVALID_TOKEN. *)
Lemma reset_password_replay st u d resp st' now :
  reset_password u d st = (Ok resp, st') →
  status_code resp = HTTP_204_NO_CONTENT →
  reset_password u d (set_clock now st') =
    (Raise (UnboundLocalError "e"), set_clock now st').
Proof.
  intros Hrun Hok.
  destruct (reset_password_success_inv _ _ _ _ _ Hrun Hok)
    as (usr & tok & pw & k & r & -> & -> & Hl & Hlt & ->).
  apply reset_password_missing. simpl.
  eapply objects_filter_delete, Hl.
Qed.

(** C2: a one-time token created at [created_at r] is accepted by
    [verify_email] and by [reset_password] whenever the clock reads less
    than [created_at r] plus 24 hours (so at 23h59m), and is rejected from
    24 hours on (so at 24h01m and later): with EXPIRED_TOKEN by
    [verify_email], with INVALID_TOKEN and the message that the token has
    expired by [reset_password]. *)
Theorem one_time_token_window st now :
  (∀ tok k r u,
     objects_filter (by_token tok) (EmailVerificationToken_objects st) = [(k, r)] →
     User_objects st !! user r = Some u →
     (now < created_at r + timedelta 24 →
      ∃ payload,
        (verify_email (Some tok) (set_clock now st)).1 =
          Ok (mkResponse (SuccessBody "Email verified successfully" payload)
                HTTP_200_OK))
     ∧ (created_at r + timedelta 24 ≤ now →
        (verify_email (Some tok) (set_clock now st)).1 =
          Ok (handle_exception_response "EXPIRED_TOKEN"
                "Invalid or expired verification token." None
                HTTP_400_BAD_REQUEST)))
  ∧ (∀ usr tok pw k r,
       objects_filter (by_user_and_token usr.1 tok)
         (PasswordResetToken_objects st) = [(k, r)] →
       (now < created_at r + timedelta 24 →
        (reset_password (Some usr) (mkPasswordResetData (Some tok) (Some pw))
           (set_clock now st)).1 =
          Ok (mkResponse NoBody HTTP_204_NO_CONTENT))
       ∧ (created_at r + timedelta 24 ≤ now →
          (reset_password (Some usr) (mkPasswordResetData (Some tok) (Some pw))
             (set_clock now st)).1 =
            Ok (handle_exception_response "INVALID_TOKEN"
                  "Password reset token has expired." None
                  HTTP_400_BAD_REQUEST))).
Proof.
  split.
  - intros tok k r u Hl Hu. split.
    + intros Hlt.
      destruct (verify_email_accepts (set_clock now st) tok k r u Hl Hu Hlt)
        as (rt & at' & st' & -> & _).
      eauto.
    + intros Hge. by rewrite (verify_email_expired (set_clock now st) tok k r Hl Hge).
  - intros usr tok pw k r Hl. split.
    + intros Hlt.
      by rewrite (reset_password_accepts (set_clock now st) usr tok pw k r Hl Hlt).
    + intros Hge.
      by rewrite (reset_password_expired (set_clock now st) usr tok pw k r Hl Hge).
Qed.

(** C9: on the expired branch nothing is written.  [verify_email] answers
    EXPIRED_TOKEN and [reset_password] answers INVALID_TOKEN, and in both
    cases the database afterwards is the database before: the token row
    is still stored and the account is as it was, the verification flag
    and the password hash included. *)
Theorem expired_token_frame st :
  (∀ tok k r,
     objects_filter (by_token tok) (EmailVerificationToken_objects st) = [(k, r)] →
     created_at r + timedelta 24 ≤ clock st →
     ∃ resp st',
       verify_email (Some tok) st = (Ok resp, st')
       ∧ error_code_of resp = Some "EXPIRED_TOKEN"
       ∧ st' = st
       ∧ EmailVerificationToken_objects st' !! k = Some r
       ∧ User_objects st' = User_objects st)
  ∧ (∀ usr tok pw k r,
       objects_filter (by_user_and_token usr.1 tok)
         (PasswordResetToken_objects st) = [(k, r)] →
       created_at r + timedelta 24 ≤ clock st →
       ∃ resp st',
         reset_password (Some usr) (mkPasswordResetData (Some tok) (Some pw)) st
           = (Ok resp, st')
         ∧ error_code_of resp = Some "INVALID_TOKEN"
         ∧ st' = st
         ∧ PasswordResetToken_objects st' !! k = Some r
         ∧ User_objects st' = User_objects st).
Proof.
  split.
  - intros tok k r Hl Hge. rewrite (verify_email_expired _ _ _ _ Hl Hge).
    eexists _, _. split; [reflexivity|].
    repeat split. by apply objects_filter_lookup in Hl as [Hk _].
  - intros usr tok pw k r Hl Hge.
    rewrite (reset_password_expired _ _ _ _ _ _ Hl Hge).
    eexists _, _. split; [reflexivity|].
    repeat split. by apply objects_filter_lookup in Hl as [Hk _].
Qed.

(** ** The claims about the blacklist *)

(** C3: an identifier that is blacklisted stays blacklisted through every
    run of the service (any sequence of requests to the ten actions and
    of clock ticks), and in the database the run reaches every
    credential-validating call on a token with that identifier fails,
    whatever the token's expiry: the construction of a token object of
    either class raises [TokenError], [refresh_token] answers
    INVALID_REFRESH_TOKEN, and so does [logout] given the token as its
    refresh or as its access parameter. *)
Theorem blacklisted_forever es st j :
  Ledger.isBlacklisted j (ledger st) = true →
  Ledger.isBlacklisted j (ledger (run es st)) = true
  ∧ (∀ kind t, jti t = j →
       ∃ msg, validate kind (Signed t) (run es st)
              = (Raise (TokenError msg), run es st))
  ∧ (∀ t, jti t = j →
       ∃ e, refresh_token (Some (Signed t)) (run es st) =
              (Ok (handle_exception_response "INVALID_REFRESH_TOKEN"
                     "Invalid or expired refresh token" (Some e)
                     HTTP_400_BAD_REQUEST), run es st))
  ∧ (∀ u t ap, jti t = j →
       ∃ e, logout u (Some (Signed t)) ap (run es st) =
              (Ok (handle_exception_response "INVALID_REFRESH_TOKEN"
                     "Invalid or expired token" (Some e)
                     HTTP_400_BAD_REQUEST), run es st))
  ∧ (∀ u t, jti t = j →
       ∃ e, logout u None (Some (Signed t)) (run es st) =
              (Ok (handle_exception_response "INVALID_REFRESH_TOKEN"
                     "Invalid or expired token" (Some e)
                     HTTP_400_BAD_REQUEST), run es st)).
Proof.
  intros Hj. pose proof (run_ledger_grows es st j Hj) as Hj'.
  split; [exact Hj'|]. split; [|split; [|split]].
  - intros kind t <-. apply validate_unusable. by apply usable_blacklisted.
  - intros t <-. apply refresh_token_rejects. by apply usable_blacklisted.
  - intros u t ap <-. apply logout_refresh_rejected; [done|].
    by apply usable_blacklisted.
  - intros u t <-. apply logout_access_rejected; [done|done|].
    by apply usable_blacklisted.
Qed.

(** ** The claims about [login] *)

(** C4: an account that is registered but not verified, presenting its
    correct credentials, is answered with NOT_VERIFIED and status 400, a
    response whose data carries no token; once [verify_email] has
    succeeded on a token of that account, the same credentials are
    answered with the success response and its refresh and access
    tokens. *)
Theorem login_requires_verification st d uid u :
  objects_filter (by_email (auth_email d)) (User_objects st) = [(uid, u)] →
  check_password (auth_password d) (password u) = true →
  (is_verified u = false →
   (login d st).1 =
     Ok (handle_exception_response "NOT_VERIFIED"
           "User's email is not verified." None HTTP_400_BAD_REQUEST)
   ∧ ∀ resp, (login d st).1 = Ok resp → response_keys resp = [])
  ∧ (∀ tok k r resp st',
       EmailVerificationToken_objects st !! k = Some r →
       token r = tok → user r = uid →
       verify_email (Some tok) st = (Ok resp, st') →
       status_code resp = HTTP_200_OK →
       ∃ rt at',
         (login d st').1 =
           Ok (handle_success_response "Login successful."
                 [("refresh", Tok (Signed rt)); ("access", Tok (Signed at'))])
         ∧ typ rt = Refresh ∧ typ at' = Access).
Proof.
  intros Hl Hp. split.
  - intros Hv. rewrite (login_unverified _ _ _ _ Hl Hp Hv). simpl.
    split; [done|]. by intros resp [= <-].
  - intros tok k r resp st' Hk Htok Hown Hrun Hok.
    destruct (verify_email_success_inv _ _ _ _ Hrun Hok)
      as (tok' & k' & r' & u' & [= <-] & Hl' & Hu' & Hlt).
    assert ((k, r) ∈ objects_filter (by_token tok)
                       (EmailVerificationToken_objects st)) as Hin.
    { apply objects_filter_elem. split; [done|].
      unfold by_token. by apply String.eqb_eq. }
    rewrite Hl' in Hin. apply list_elem_of_singleton in Hin as [= <- <-].
    subst uid.
    destruct (objects_filter_lookup _ _ _ _ Hl) as [Hu _].
    rewrite Hu in Hu'. injection Hu' as <-.
    destruct (verify_email_accepts _ _ _ _ _ Hl' Hu Hlt)
      as (rt0 & at0 & st1 & Hrun' & _ & _ & _ & _ & Husers & _).
    rewrite Hrun in Hrun'. injection Hrun' as _ <-.
    destruct (login_verified st' d (user r)
                (mkUser (email u) (password u) true (profile u)))
      as (rt & at' & st2 & -> & Hrt & _ & Hat & _).
    + rewrite Husers. eapply objects_filter_insert; [exact Hl|].
      by destruct (objects_filter_lookup _ _ _ _ Hl) as [_ Hq].
    + exact Hp.
    + reflexivity.
    + by exists rt, at'.
Qed.

(** C6: when an unverified account logs in with valid credentials, the
    token-issuing call [RefreshToken.for_user] has run before the
    verification flag is looked at.  The database [login] leaves is the
    one that call leaves: the next token identifier is used up and the
    refresh token is recorded as outstanding, so the database is not the
    one [login] started from; the NOT_VERIFIED response carries no token,
    and the token minted is dropped. *)
Theorem login_unverified_mints_and_discards st d uid u :
  objects_filter (by_email (auth_email d)) (User_objects st) = [(uid, u)] →
  check_password (auth_password d) (password u) = true →
  is_verified u = false →
  ∃ rt,
    RefreshToken_for_user (uid, u) st = (Ok rt, (login d st).2)
    ∧ typ rt = Refresh ∧ user_id rt = uid ∧ jti rt = next_jti st
    ∧ (login d st).1 =
        Ok (handle_exception_response "NOT_VERIFIED"
              "User's email is not verified." None HTTP_400_BAD_REQUEST)
    ∧ (∀ resp, (login d st).1 = Ok resp → response_keys resp = [])
    ∧ next_jti (login d st).2 = next_jti st + 1
    ∧ (ledger st !! next_jti st = None →
       ledger (login d st).2 !! jti rt = Some (mkEntry (Some uid) outstanding))
    ∧ (login d st).2 ≠ st.
Proof.
  intros Hl Hp Hv. rewrite (login_unverified _ _ _ _ Hl Hp Hv).
  rewrite RefreshToken_for_user_run. simpl.
  eexists. split; [reflexivity|]. simpl. repeat split.
  - by intros resp [= <-].
  - intros Hnone. unfold Ledger.record. rewrite Hnone.
    apply lookup_insert_eq.
  - intros Heq. apply (f_equal next_jti) in Heq. simpl in Heq. lia.
Qed.

(** ** The claims about [reset_password] *)

Lemma reset_password_never_expired_code st u d resp :
  (reset_password u d st).1 = Ok resp →
  error_code_of resp ≠ Some "EXPIRED_TOKEN".
Proof.
  destruct u as [usr|].
  2: { destruct (reset_password_anonymous st d) as [e ->].
       intros [= <-]. discriminate. }
  destruct d as [[tok|] [pw|]];
    try (unfold reset_password, PasswordResetSerializer; run_goal;
         intros [= <-]; discriminate).
  destruct (objects_filter (by_user_and_token usr.1 tok)
              (PasswordResetToken_objects st)) as [|[k r] [|o l]] eqn:Hl.
  - rewrite reset_password_missing by done. discriminate.
  - destruct (Z.lt_ge_cases (clock st) (created_at r + timedelta 24)) as [Hlt|Hge].
    + rewrite (reset_password_accepts _ _ _ _ _ _ Hl Hlt).
      intros [= <-]. discriminate.
    + rewrite (reset_password_expired _ _ _ _ _ _ Hl Hge).
      intros [= <-]. discriminate.
  - unfold reset_password, PasswordResetSerializer,
      PasswordResetToken_objects_get, objects_get.
    run_goal. rewrite Hl. simpl. intros [= <-]. discriminate.
Qed.

(** C8, as amended: [reset_password] reports a PasswordReset token of the
    caller's account that is 24 hours old or older under the error code
    INVALID_TOKEN, with HTTP status 400 and the message that the token
    has expired; no response of [reset_password] carries the error code
    EXPIRED_TOKEN. *)
Theorem reset_password_expiry_is_invalid_token st :
  (∀ usr tok pw k r,
     objects_filter (by_user_and_token usr.1 tok)
       (PasswordResetToken_objects st) = [(k, r)] →
     created_at r + timedelta 24 ≤ clock st →
     reset_password (Some usr) (mkPasswordResetData (Some tok) (Some pw)) st =
       (Ok (handle_exception_response "INVALID_TOKEN"
              "Password reset token has expired." None HTTP_400_BAD_REQUEST),
        st))
  ∧ (∀ u d resp,
       (reset_password u d st).1 = Ok resp →
       error_code_of resp ≠ Some "EXPIRED_TOKEN").
Proof.
  split.
  - intros usr tok pw k r. apply reset_password_expired.
  - intros u d resp. apply reset_password_never_expired_code.
Qed.

(** C10, as amended: [reset_password] is open to unauthenticated callers
    (its permission is [AllowAny]) but looks the token up under the
    requesting user, so it succeeds only for a caller authenticated as
    the account that owns an unexpired PasswordReset token with the given
    string; an unauthenticated caller is answered with VALIDATION_ERROR
    and nothing is written; and when the caller's account owns no token
    with the given string, whoever else does, the call does not succeed
    and nothing is written. *)
Theorem reset_password_owner_only st :
  get_permissions "reset_password" = [AllowAny]
  ∧ check_permissions "reset_password" None = true
  ∧ (∀ u d resp st',
       reset_password u d st = (Ok resp, st') →
       status_code resp = HTTP_204_NO_CONTENT →
       ∃ usr tok pw k r,
         u = Some usr ∧ d = mkPasswordResetData (Some tok) (Some pw)
         ∧ PasswordResetToken_objects st !! k = Some r
         ∧ user r = usr.1 ∧ token r = tok
         ∧ clock st < created_at r + timedelta 24)
  ∧ (∀ d, ∃ e, reset_password None d st = (Ok (VALIDATION_ERROR e), st))
  ∧ (∀ usr tok pw,
       (∀ k r, PasswordResetToken_objects st !! k = Some r →
               token r = tok → user r ≠ usr.1) →
       (reset_password (Some usr) (mkPasswordResetData (Some tok) (Some pw)) st).2
         = st
       ∧ ∀ resp,
           (reset_password (Some usr) (mkPasswordResetData (Some tok) (Some pw))
              st).1 = Ok resp →
           status_code resp ≠ HTTP_204_NO_CONTENT).
Proof.
  split; [reflexivity|]. split; [reflexivity|]. split; [|split].
  - intros u d resp st' Hrun Hok.
    destruct (reset_password_success_inv _ _ _ _ _ Hrun Hok)
      as (usr & tok & pw & k & r & -> & -> & Hl & Hlt & _).
    exists usr, tok, pw, k, r.
    destruct (objects_filter_lookup _ _ _ _ Hl) as [Hk Hq].
    unfold by_user_and_token in Hq. apply andb_prop in Hq as [Hu Ht].
    apply Z.eqb_eq in Hu. apply String.eqb_eq in Ht. done.
  - apply reset_password_anonymous.
  - intros usr tok pw Hother.
    rewrite reset_password_missing; [split; [done|discriminate]|].
    apply objects_filter_nil. intros k r Hk. unfold by_user_and_token.
    destruct (String.eqb_spec (token r) tok) as [Ht|Ht];
      [|apply andb_false_r].
    rewrite andb_true_r. apply Z.eqb_neq. by apply (Hother k r).
Qed.

End properties.

(** * Further properties of the views *)

Section more_properties.
Context `{Collaborators}.

Ltac mrun :=
  unfold bind, try_except, ret, raise, modify, get_db, timezone_now,
    required_field, local_var; simpl.

(** ** Permissions *)

(** [get_permissions] falls back on [IsAuthenticated]: a caller who is not
    authenticated passes the permission check for the five open actions
    and for no other action name, listed or not; an authenticated caller
    passes it for every action name. *)
Theorem anonymous_access action :
  (check_permissions action None = true ↔ action ∈ open_actions)
  ∧ ∀ u, check_permissions action (Some u) = true.
Proof.
  unfold check_permissions, get_permissions, permission_classes_dict, open_actions.
  simpl list_to_map. split.
  - rewrite !lookup_insert, lookup_empty.
    repeat case_decide; subst; simpl;
      rewrite ?elem_of_cons, ?elem_of_nil; split; intros Hx;
      try done; try tauto; try discriminate;
      repeat (destruct Hx as [Hx|Hx]; [congruence|]); done.
  - intros u. rewrite !lookup_insert, lookup_empty.
    repeat case_decide; reflexivity.
Qed.

(** ** Views whose last handler is [except Exception] *)





(** ** Views that leave the accounts alone *)

Lemma same_accounts_refl st : same_accounts st st.
Proof. by repeat split. Qed.

Lemma same_accounts_trans st1 st2 st3 :
  same_accounts st1 st2 → same_accounts st2 st3 → same_accounts st1 st3.
Proof.
  intros (Hu & He & Hp & Hc) (Hu' & He' & Hp' & Hc').
  repeat split; congruence.
Qed.

Lemma keeps_accounts_ret {A} (a : A) : keeps_accounts (ret a).
Proof. intros st. apply same_accounts_refl. Qed.

Lemma keeps_accounts_raise {A} e : keeps_accounts (raise (A := A) e).
Proof. intros st. apply same_accounts_refl. Qed.

Lemma keeps_accounts_get_db : keeps_accounts get_db.
Proof. intros st. apply same_accounts_refl. Qed.

Lemma keeps_accounts_bind {A B} (c : M A) (k : A → M B) :
  keeps_accounts c → (∀ a, keeps_accounts (k a)) → keeps_accounts (bind c k).
Proof.
  intros Hc Hk st. unfold bind. specialize (Hc st).
  destruct (c st) as [[a|e] st1]; simpl in *; [|done].
  eapply same_accounts_trans; [exact Hc|apply Hk].
Qed.

Lemma keeps_accounts_try_except {A} (body : M A) (handler : exn → M A) :
  keeps_accounts body → (∀ e, keeps_accounts (handler e)) →
  keeps_accounts (try_except body handler).
Proof.
  intros Hb Hh st. unfold try_except. specialize (Hb st).
  destruct (body st) as [[a|e] st1]; simpl in *; [done|].
  eapply same_accounts_trans; [exact Hb|apply Hh].
Qed.

Lemma keeps_accounts_objects_get {A} m (q : A → bool) tbl :
  keeps_accounts (objects_get m q tbl).
Proof.
  unfold objects_get.
  destruct (objects_filter q tbl) as [|o [|o' l]];
    auto using keeps_accounts_ret, keeps_accounts_raise.
Qed.

Lemma keeps_accounts_blacklist t : keeps_accounts (blacklist t).
Proof. intros st. unfold blacklist. by destruct (typ t). Qed.

Lemma keeps_accounts_issue s kind ttl : keeps_accounts (issue s kind ttl).
Proof. intros st. by repeat split. Qed.

Lemma keeps_accounts_for_user u : keeps_accounts (RefreshToken_for_user u).
Proof. intros st. by repeat split. Qed.

Lemma keeps_accounts_validate kind raw : keeps_accounts (validate kind raw).
Proof.
  intros st. destruct (usable kind raw st) eqn:Hu.
  - destruct (validate_usable _ _ _ Hu) as (t & _ & _ & ->).
    apply same_accounts_refl.
  - destruct (validate_unusable _ _ _ Hu) as (msg & ->).
    apply same_accounts_refl.
Qed.

Create HintDb accounts_frame.

#[local] Hint Resolve keeps_accounts_ret keeps_accounts_raise
  keeps_accounts_get_db keeps_accounts_objects_get keeps_accounts_blacklist
  keeps_accounts_issue keeps_accounts_for_user keeps_accounts_validate
  : accounts_frame.

Ltac frame :=
  repeat first
    [ progress eauto with accounts_frame
    | apply keeps_accounts_bind; [|intros ?]
    | apply keeps_accounts_try_except; [|intros ?]
    | match goal with
      | |- keeps_accounts (match ?x with _ => _ end) => destruct x
      | |- keeps_accounts (if ?b then _ else _) => destruct b
      end ].

(** The token endpoints write to the blacklist ledger and the identifier
    counter at most: [login], [logout] and [refresh_token] never change an
    account, a one-time token or the clock, whatever they answer; and
    [get_profile] writes nothing at all. *)
Theorem token_views_keep_accounts :
  (∀ d, keeps_accounts (login d))
  ∧ (∀ u r a, keeps_accounts (logout u r a))
  ∧ (∀ d, keeps_accounts (refresh_token d))
  ∧ (∀ u st, (get_profile u st).2 = st).
Proof.
  split; [|split; [|split]].
  - intros d. unfold login, AuthUserSerializer, access_token. frame.
  - intros u r a.
    unfold logout, RefreshToken, AccessToken, access_token, auth_logout, supplied.
    frame.
  - intros d. unfold refresh_token, required_field, RefreshToken, access_token.
    frame.
  - intros u st. unfold get_profile, User_objects_get_by_email, objects_get.
    mrun.
    destruct (objects_filter (by_email (email u.2)) (User_objects st))
      as [|p [|p' l]]; simpl; try reflexivity.
Qed.

(** ** [login] with credentials that do not match *)

Lemma objects_filter_insert_new {A} (q : A → bool) (tbl : gmap Z A) k r :
  objects_filter q tbl = [] → q r = true →
  objects_filter q (<[k := r]> tbl) = [(k, r)].
Proof.
  intros Hl Hq. unfold objects_filter in *.
  rewrite map_filter_insert_True by exact Hq.
  apply map_to_list_empty_iff in Hl. rewrite Hl, insert_empty.
  apply map_to_list_singleton.
Qed.

Lemma login_unknown_email st d :
  objects_filter (by_email (auth_email d)) (User_objects st) = [] →
  login d st = (Ok (VALIDATION_ERROR ValidationError), st).
Proof.
  intros Hl. unfold login, AuthUserSerializer. mrun. rewrite Hl. reflexivity.
Qed.

Lemma login_wrong_password st d uid u :
  objects_filter (by_email (auth_email d)) (User_objects st) = [(uid, u)] →
  check_password (auth_password d) (password u) = false →
  login d st = (Ok (VALIDATION_ERROR ValidationError), st).
Proof.
  intros Hl Hp. unfold login, AuthUserSerializer. mrun.
  rewrite Hl. simpl. rewrite Hp. reflexivity.
Qed.

(** When no account has the email of the request, or the one account
    that has it does not pass the password check, [login] answers
    VALIDATION_ERROR with status 400 and writes nothing: no token is
    issued for a login that fails on its credentials. *)
Theorem login_bad_credentials st d :
  (objects_filter (by_email (auth_email d)) (User_objects st) = [] →
   login d st = (Ok (VALIDATION_ERROR ValidationError), st))
  ∧ (∀ uid u,
       objects_filter (by_email (auth_email d)) (User_objects st) = [(uid, u)] →
       check_password (auth_password d) (password u) = false →
       login d st = (Ok (VALIDATION_ERROR ValidationError), st)).
Proof.
  split; [apply login_unknown_email|]. intros uid u. apply login_wrong_password.
Qed.

(** ** [change_password] *)

(** [change_password] without the new password answers VALIDATION_ERROR
    and writes nothing.  With one it answers 204, and from then on the
    account logs in with the new password, while a password that the new
    hash does not verify is refused; this for a verified account whose
    email is its own and a hasher that verifies what it has hashed. *)
Theorem change_password_then_login st uid u pw :
  objects_filter (by_email (email u)) (User_objects st) = [(uid, u)] →
  is_verified u = true →
  check_password pw (make_password pw) = true →
  change_password (uid, u) None st = (Ok (VALIDATION_ERROR ValidationError), st)
  ∧ ∃ st',
      change_password (uid, u) (Some pw) st =
        (Ok (mkResponse NoBody HTTP_204_NO_CONTENT), st')
      ∧ (∃ rt at',
           (login (mkAuthData (email u) pw) st').1 =
             Ok (handle_success_response "Login successful."
                   [("refresh", Tok (Signed rt)); ("access", Tok (Signed at'))]))
      ∧ (∀ old, check_password old (make_password pw) = false →
           (login (mkAuthData (email u) old) st').1 =
             Ok (VALIDATION_ERROR ValidationError)).
Proof.
  intros Hl Hv Hh. split; [reflexivity|].
  eexists. split; [reflexivity|].
  assert (objects_filter (by_email (email u))
            (<[uid := mkUser (email u) (make_password pw) (is_verified u) (profile u)]>
               (User_objects st))
          = [(uid, mkUser (email u) (make_password pw) (is_verified u) (profile u))])
    as Hl'.
  { eapply objects_filter_insert; [exact Hl|].
    unfold by_email. simpl. apply String.eqb_refl. }
  split.
  - destruct (login_verified
                (set_User_objects
                   (insert uid (mkUser (email u) (make_password pw)
                                  (is_verified u) (profile u))) st)
                (mkAuthData (email u) pw) uid
                (mkUser (email u) (make_password pw) (is_verified u) (profile u)))
      as (rt & at' & st2 & Hrun & _); [exact Hl'|exact Hh|exact Hv|].
    exists rt, at'. simpl. simpl in Hrun. by rewrite Hrun.
  - intros old Hold.
    pose proof (login_wrong_password
                  (set_User_objects
                     (insert uid (mkUser (email u) (make_password pw)
                                    (is_verified u) (profile u))) st)
                  (mkAuthData (email u) old) _ _ Hl' Hold) as Hbad.
    simpl. simpl in Hbad. by rewrite Hbad.
Qed.

(** ** What [verify_email] writes *)

Lemma verify_email_cases st tok :
  (∃ resp, verify_email (Some tok) st = (Ok resp, st)
           ∧ status_code resp ≠ HTTP_200_OK)
  ∨ (∃ resp st', verify_email (Some tok) st = (Ok resp, st')
                 ∧ status_code resp = HTTP_200_OK).
Proof.
  destruct (objects_filter (by_token tok) (EmailVerificationToken_objects st))
    as [|[k r] [|o l]] eqn:Hl.
  - left. rewrite verify_email_missing by done. eexists. split; [done|]. done.
  - destruct (Z.lt_ge_cases (clock st) (created_at r + timedelta 24)) as [Hlt|Hge].
    + destruct (User_objects st !! user r) as [u|] eqn:Hu.
      * right.
        destruct (verify_email_accepts _ _ _ _ _ Hl Hu Hlt)
          as (rt & at' & st' & -> & _).
        eexists _, _. split; reflexivity.
      * left. unfold verify_email, objects_get, related_user. mrun.
        rewrite Hl. simpl.
        destruct (Z.gtb_spec (created_at r + timedelta 24) (clock st)); [|lia].
        rewrite Hu. simpl. eexists. split; [done|]. done.
    + left. rewrite (verify_email_expired _ _ _ _ Hl Hge).
      eexists. split; [done|]. done.
  - left. unfold verify_email, objects_get. mrun. rewrite Hl. simpl.
    eexists. split; [done|]. done.
Qed.

(** [verify_email] raises exactly when the request has no token
    parameter (the serializer runs before the [try] statement); in every
    other case it answers, and unless the answer is the 200 of a
    verification it has written nothing. *)
Theorem verify_email_writes_only_on_success st qt :
  ((∃ e, (verify_email qt st).1 = Raise e) ↔ qt = None)
  ∧ (status_of_result (verify_email qt st).1 ≠ Some HTTP_200_OK →
     (verify_email qt st).2 = st).
Proof.
  destruct qt as [tok|].
  - destruct (verify_email_cases st tok)
      as [(resp & -> & Hne)|(resp & st' & -> & Hok)]; simpl.
    + split; [|done]. split; [intros [e [=]]|discriminate].
    + split; [split; [intros [e [=]]|discriminate]|].
      rewrite Hok. intros Hne. by destruct Hne.
  - split; [|reflexivity]. split; [done|]. intros _. by eexists.
Qed.

(** A verification that succeeds consumes the one token row it matched,
    sets [is_verified] on that row's owner and changes nothing else: the
    owner's email, password hash and profile, every other account, and
    the password-reset tokens are as they were. *)
Theorem verify_email_touches_owner_only st qt resp st' :
  verify_email qt st = (Ok resp, st') → status_code resp = HTTP_200_OK →
  ∃ k r u,
    EmailVerificationToken_objects st !! k = Some r
    ∧ qt = Some (token r)
    ∧ User_objects st !! user r = Some u
    ∧ User_objects st' !! user r
      = Some (mkUser (email u) (password u) true (profile u))
    ∧ (∀ other, other ≠ user r →
         User_objects st' !! other = User_objects st !! other)
    ∧ EmailVerificationToken_objects st'
      = delete k (EmailVerificationToken_objects st)
    ∧ PasswordResetToken_objects st' = PasswordResetToken_objects st.
Proof.
  intros Hrun Hok.
  destruct (verify_email_success_inv _ _ _ _ Hrun Hok)
    as (tok & k & r & u & -> & Hl & Hu & Hlt).
  destruct (verify_email_accepts _ _ _ _ _ Hl Hu Hlt)
    as (rt & at' & st1 & Hrun' & _ & _ & _ & _ & Husers & Hdel & Hprt & _).
  rewrite Hrun in Hrun'. injection Hrun' as _ <-.
  destruct (objects_filter_lookup _ _ _ _ Hl) as [Hk Hq].
  unfold by_token in Hq. apply String.eqb_eq in Hq.
  exists k, r, u. rewrite Husers.
  split; [done|]. split; [by rewrite Hq|]. split; [done|].
  split; [apply lookup_insert_eq|]. split; [|done].
  intros other Hne. by apply lookup_insert_ne.
Qed.

(** ** What [reset_password] writes *)

Lemma reset_password_cases st u d :
  reset_password u d st = (Raise (UnboundLocalError "e"), st)
  ∨ (∃ resp, reset_password u d st = (Ok resp, st)
             ∧ status_code resp ≠ HTTP_204_NO_CONTENT)
  ∨ (∃ st', reset_password u d st
            = (Ok (mkResponse NoBody HTTP_204_NO_CONTENT), st')).
Proof.
  destruct u as [usr|].
  2: { destruct (reset_password_anonymous st d) as [e ->].
       right; left. eexists. split; [done|]. done. }
  destruct d as [[tok|] [pw|]];
    try (right; left; unfold reset_password, PasswordResetSerializer; mrun;
         eexists; split; [done|]; done).
  destruct (objects_filter (by_user_and_token usr.1 tok)
              (PasswordResetToken_objects st)) as [|[k r] [|o l]] eqn:Hl.
  - left. by apply reset_password_missing.
  - destruct (Z.lt_ge_cases (clock st) (created_at r + timedelta 24)) as [Hlt|Hge].
    + right; right. rewrite (reset_password_accepts _ _ _ _ _ _ Hl Hlt). eauto.
    + right; left. rewrite (reset_password_expired _ _ _ _ _ _ Hl Hge).
      eexists. split; [done|]. done.
  - right; left.
    unfold reset_password, PasswordResetSerializer,
      PasswordResetToken_objects_get, objects_get.
    mrun. rewrite Hl. simpl. eexists. split; [done|]. done.
Qed.

(** Unless [reset_password] answers 204 it has written nothing: whether
    it answers with an error or raises, the password hash and the token
    row are as they were. *)
Theorem reset_password_writes_only_on_success st u d :
  status_of_result (reset_password u d st).1 ≠ Some HTTP_204_NO_CONTENT →
  (reset_password u d st).2 = st.
Proof.
  destruct (reset_password_cases st u d)
    as [->|[(resp & -> & _)|(st' & ->)]]; simpl; [done|done|].
  intros Hne. by destruct Hne.
Qed.

(** A reset that succeeds stores the hash of the new password on the
    caller's account and consumes the token; from then on the account
    logs in with the new password, and the token presented again is not
    accepted.  This for a verified caller whose request carries the
    stored row of the account, and a hasher that verifies what it has
    hashed. *)
Theorem reset_password_then_login st uid u tok pw k r :
  objects_filter (by_user_and_token uid tok) (PasswordResetToken_objects st)
    = [(k, r)] →
  clock st < created_at r + timedelta 24 →
  objects_filter (by_email (email u)) (User_objects st) = [(uid, u)] →
  is_verified u = true →
  check_password pw (make_password pw) = true →
  ∃ st',
    reset_password (Some (uid, u)) (mkPasswordResetData (Some tok) (Some pw)) st
      = (Ok (mkResponse NoBody HTTP_204_NO_CONTENT), st')
    ∧ User_objects st' !! uid
      = Some (mkUser (email u) (make_password pw) true (profile u))
    ∧ PasswordResetToken_objects st' !! k = None
    ∧ (∃ rt at',
         (login (mkAuthData (email u) pw) st').1 =
           Ok (handle_success_response "Login successful."
                 [("refresh", Tok (Signed rt)); ("access", Tok (Signed at'))]))
    ∧ status_of_result
        (reset_password (Some (uid, u))
           (mkPasswordResetData (Some tok) (Some pw)) st').1
      ≠ Some HTTP_204_NO_CONTENT.
Proof.
  intros Hl Hlt Hle Hv Hh.
  pose proof (reset_password_accepts st (uid, u) tok pw k r Hl Hlt) as Hrun.
  eexists. split; [exact Hrun|]. simpl.
  split; [rewrite lookup_insert_eq, Hv; reflexivity|].
  split; [apply lookup_delete_eq|].
  split.
  - destruct (login_verified
                (set_PasswordResetToken_objects (delete k)
                   (set_User_objects
                      (insert uid (mkUser (email u) (make_password pw)
                                     (is_verified u) (profile u))) st))
                (mkAuthData (email u) pw) uid
                (mkUser (email u) (make_password pw) (is_verified u) (profile u)))
      as (rt & at' & st2 & Hlogin & _); [|exact Hh|exact Hv|].
    + simpl. eapply objects_filter_insert; [exact Hle|].
      unfold by_email. simpl. apply String.eqb_refl.
    + exists rt, at'. simpl in Hlogin. by rewrite Hlogin.
  - rewrite reset_password_missing; [simpl; discriminate|].
    simpl. eapply objects_filter_delete, Hl.
Qed.

(** ** [send_password_reset_token] *)

(** [send_password_reset_token] raises [ValidationError] when the request
    has no email parameter (the serializer runs before the [try]
    statement) and answers USER_NOT_FOUND with status 404 when no account
    has the email; in both cases nothing is written. *)
Theorem send_password_reset_token_errors st :
  send_password_reset_token None st = (Raise ValidationError, st)
  ∧ (∀ e, objects_filter (by_email e) (User_objects st) = [] →
          send_password_reset_token (Some e) st = (Ok USER_NOT_FOUND, st)).
Proof.
  split; [reflexivity|]. intros e Hl.
  unfold send_password_reset_token, User_objects_get_by_email, objects_get.
  mrun. rewrite Hl. reflexivity.
Qed.

(** The token [send_password_reset_token] answers with is the one it has
    stored for the account, stamped with the current time: the account's
    owner resets the password with it at any time before 24 hours have
    passed, and is refused with INVALID_TOKEN from then on.  The accounts,
    the verification tokens and the ledger are untouched by the request.
    This when the generator returns a string that no reset token of the
    account carries yet. *)
Theorem send_password_reset_token_then_reset st e uid u pw now :
  objects_filter (by_email e) (User_objects st) = [(uid, u)] →
  (∀ k r, PasswordResetToken_objects st !! k = Some r → user r = uid →
          token r ≠
            token_generator_and_check_if_exists (PasswordResetToken_objects st)) →
  ∃ st',
    send_password_reset_token (Some e) st =
      (Ok (handle_success_response "Password reset token sent to your email."
             [("token",
               Str (token_generator_and_check_if_exists
                      (PasswordResetToken_objects st)))]), st')
    ∧ User_objects st' = User_objects st
    ∧ EmailVerificationToken_objects st' = EmailVerificationToken_objects st
    ∧ ledger st' = ledger st
    ∧ (now < clock st + timedelta 24 →
       (reset_password (Some (uid, u))
          (mkPasswordResetData
             (Some (token_generator_and_check_if_exists
                      (PasswordResetToken_objects st))) (Some pw))
          (set_clock now st')).1 =
         Ok (mkResponse NoBody HTTP_204_NO_CONTENT))
    ∧ (clock st + timedelta 24 ≤ now →
       (reset_password (Some (uid, u))
          (mkPasswordResetData
             (Some (token_generator_and_check_if_exists
                      (PasswordResetToken_objects st))) (Some pw))
          (set_clock now st')).1 =
         Ok (handle_exception_response "INVALID_TOKEN"
               "Password reset token has expired." None HTTP_400_BAD_REQUEST)).
Proof.
  intros Hl Hnew.
  set (tok := token_generator_and_check_if_exists (PasswordResetToken_objects st)).
  eexists. split.
  { unfold send_password_reset_token, User_objects_get_by_email, objects_get.
    mrun. rewrite Hl. reflexivity. }
  simpl. split; [done|]. split; [done|]. split; [done|].
  assert (objects_filter (by_user_and_token uid tok)
            (create_token tok (uid, u) (PasswordResetToken_objects st) (clock st))
          = [(fresh_pk (PasswordResetToken_objects st),
              mkOneTimeToken tok uid (clock st))]) as Hrow.
  { unfold create_token. apply objects_filter_insert_new.
    - apply objects_filter_nil. intros k r Hk. unfold by_user_and_token.
      destruct (Z.eqb_spec (user r) uid) as [Hu|Hu]; [|done].
      simpl. apply String.eqb_neq. by apply (Hnew k r).
    - unfold by_user_and_token. simpl.
      by rewrite Z.eqb_refl, String.eqb_refl. }
  split.
  - intros Hlt.
    by rewrite (reset_password_accepts
                  (set_clock now
                     (set_PasswordResetToken_objects
                        (λ tbl, create_token tok (uid, u) tbl (clock st)) st))
                  (uid, u) tok pw _ _ Hrow Hlt).
  - intros Hge.
    by rewrite (reset_password_expired
                  (set_clock now
                     (set_PasswordResetToken_objects
                        (λ tbl, create_token tok (uid, u) tbl (clock st)) st))
                  (uid, u) tok pw _ _ Hrow Hge).
Qed.

(** ** [register] *)

(** [register] answers VALIDATION_ERROR with status 400 and writes nothing
    when the email is already registered or the password does not meet
    the policy: no account, no token pair and no verification token come
    of a registration that is refused. *)
Theorem register_rejects st d :
  (∀ o l, objects_filter (by_email (reg_email d)) (User_objects st) = o :: l →
          register d st = (Ok (VALIDATION_ERROR ValidationError), st))
  ∧ (validate_password (reg_password d) = false →
     register d st = (Ok (VALIDATION_ERROR ValidationError), st)).
Proof.
  split.
  - intros o l Hl. unfold register, UserRegisterSerializer. mrun.
    rewrite Hl. reflexivity.
  - intros Hp. unfold register, UserRegisterSerializer. mrun.
    destruct (objects_filter (by_email (reg_email d)) (User_objects st));
      [|reflexivity].
    rewrite Hp. reflexivity.
Qed.

(** The whole sign-up path, for every database: a registration that is
    accepted answers with a token pair and the verification token it has
    stored; until that token is presented the new account's login is
    answered NOT_VERIFIED; [verify_email] with the token from the
    response succeeds, and after it the same login succeeds.  This when
    the generator returns a string no stored verification token carries
    and the hasher verifies what it has hashed. *)
Theorem register_verify_login st d :
  objects_filter (by_email (reg_email d)) (User_objects st) = [] →
  validate_password (reg_password d) = true →
  check_password (reg_password d) (make_password (reg_password d)) = true →
  (∀ k r, EmailVerificationToken_objects st !! k = Some r →
          token r ≠ token_generator_and_check_if_exists
                      (EmailVerificationToken_objects st)) →
  ∃ rt at' st1,
    register d st =
      (Ok (handle_success_response "User registered successfully."
             [("refresh", Tok (Signed rt)); ("access", Tok (Signed at'));
              ("email_verification_token",
               Str (token_generator_and_check_if_exists
                      (EmailVerificationToken_objects st)))]), st1)
    ∧ (login (mkAuthData (reg_email d) (reg_password d)) st1).1 =
        Ok (handle_exception_response "NOT_VERIFIED"
              "User's email is not verified." None HTTP_400_BAD_REQUEST)
    ∧ ∃ resp st2,
        verify_email
          (Some (token_generator_and_check_if_exists
                   (EmailVerificationToken_objects st))) st1 = (Ok resp, st2)
        ∧ status_code resp = HTTP_200_OK
        ∧ ∃ rt' at'',
            (login (mkAuthData (reg_email d) (reg_password d)) st2).1 =
              Ok (handle_success_response "Login successful."
                    [("refresh", Tok (Signed rt')); ("access", Tok (Signed at''))]).
Proof.
  intros Hl Hpol Hh Hnew.
  set (tok := token_generator_and_check_if_exists
                (EmailVerificationToken_objects st)).
  set (uid := fresh_pk (User_objects st)).
  set (u := mkUser (reg_email d) (make_password (reg_password d)) false
              (reg_profile d)).
  eexists _, _, _. split.
  { unfold register, UserRegisterSerializer, save, access_token, issue,
      RefreshToken_for_user.
    mrun. rewrite Hl. simpl. rewrite Hpol. reflexivity. }
  match goal with |- (login _ ?s).1 = _ ∧ _ => set (st1 := s) end.
  assert (objects_filter (by_email (reg_email d)) (User_objects st1)
          = [(uid, u)]) as Hu.
  { subst st1. simpl. apply objects_filter_insert_new; [exact Hl|].
    unfold by_email. simpl. apply String.eqb_refl. }
  assert (objects_filter (by_token tok) (EmailVerificationToken_objects st1)
          = [(fresh_pk (EmailVerificationToken_objects st),
              mkOneTimeToken tok uid (clock st))]) as Ht.
  { subst st1. simpl. unfold create_token. apply objects_filter_insert_new.
    - apply objects_filter_nil. intros k r Hk. unfold by_token.
      apply String.eqb_neq. by apply (Hnew k r).
    - unfold by_token. simpl. apply String.eqb_refl. }
  split.
  - by rewrite (login_unverified st1 (mkAuthData (reg_email d) (reg_password d))
                  uid u Hu Hh eq_refl).
  - assert (User_objects st1 !! uid = Some u) as Hrow
      by (subst st1; simpl; apply lookup_insert_eq).
    destruct (verify_email_accepts st1 tok _ _ u Ht Hrow)
      as (rt0 & at0 & st2 & Hrun & _ & _ & _ & _ & Husers & _).
    { subst st1. simpl. unfold timedelta. lia. }
    eexists _, st2. split; [exact Hrun|]. split; [reflexivity|].
    destruct (login_verified st2 (mkAuthData (reg_email d) (reg_password d)) uid
                (mkUser (email u) (password u) true (profile u)))
      as (rt' & at'' & st3 & Hlogin & _).
    + rewrite Husers. simpl. eapply objects_filter_insert; [exact Hu|].
      unfold by_email. simpl. apply String.eqb_refl.
    + exact Hh.
    + reflexivity.
    + exists rt', at''. by rewrite Hlogin.
Qed.

(** ** [logout] and [refresh_token] *)

Lemma truthy_supplied p : truthy (supplied p) = truthy p.
Proof. unfold supplied. by destruct (truthy p) eqn:Hp. Qed.

Lemma supplied_supplied p : supplied (supplied p) = supplied p.
Proof.
  unfold supplied at 1. rewrite truthy_supplied.
  unfold supplied. by destruct (truthy p).
Qed.

(** The [if] statements of [logout] test the parameters for truth, so a
    parameter given as the empty string counts as not given: with both
    parameters empty [logout] behaves as with none, whereas any other
    string that is no token is answered with INVALID_REFRESH_TOKEN. *)
Theorem logout_empty_parameters st u rp ap :
  logout u rp ap st = logout u (supplied rp) (supplied ap) st
  ∧ logout u (Some (Garbage "")) (Some (Garbage "")) st = logout u None None st
  ∧ (∀ s, s ≠ "" →
       ∃ e, logout u (Some (Garbage s)) ap st =
              (Ok (handle_exception_response "INVALID_REFRESH_TOKEN"
                     "Invalid or expired token" (Some e) HTTP_400_BAD_REQUEST),
               st)).
Proof.
  split; [|split; [reflexivity|]].
  - unfold logout. by rewrite !supplied_supplied, !truthy_supplied.
  - intros s Hs. apply logout_refresh_rejected; [|reflexivity].
    destruct s; [done|reflexivity].
Qed.

(** The three steps of [logout] are not undone when a later one fails:
    given a usable refresh token and an access parameter that is not
    usable, [logout] answers INVALID_REFRESH_TOKEN and yet the refresh
    token is blacklisted, so that [refresh_token] refuses it from then
    on. *)
Theorem logout_error_keeps_blacklisting st u t raw :
  usable Refresh (Signed t) st = true →
  truthy (Some raw) = true →
  usable Access raw st = false →
  ∃ e st',
    logout u (Some (Signed t)) (Some raw) st =
      (Ok (handle_exception_response "INVALID_REFRESH_TOKEN"
             "Invalid or expired token" (Some e) HTTP_400_BAD_REQUEST), st')
    ∧ Ledger.isBlacklisted (jti t) (ledger st') = true
    ∧ ∃ e',
        refresh_token (Some (Signed t)) st' =
          (Ok (handle_exception_response "INVALID_REFRESH_TOKEN"
                 "Invalid or expired refresh token" (Some e')
                 HTTP_400_BAD_REQUEST), st').
Proof.
  intros Hr Ha Hu.
  destruct (logout_both_access_rejected st u t raw Hr Ha
              (usable_false_blacklist _ _ _ (jti t) Hu)) as [e He].
  exists e. eexists. split; [exact He|].
  assert (Ledger.isBlacklisted (jti t)
            (ledger (set_ledger (Ledger.blacklist (jti t)) st)) = true) as Hbl.
  { simpl. rewrite isBlacklisted_blacklist.
    by rewrite bool_decide_eq_true_2. }
  split; [exact Hbl|].
  apply refresh_token_rejects. by apply usable_blacklisted.
Qed.

(** Logging out with a usable refresh token revokes it: [logout] answers
    the success response, and [refresh_token] given the same token
    afterwards, at whatever time, answers INVALID_REFRESH_TOKEN, although
    before the logout it would have answered with an access token. *)
Theorem logout_then_refresh_token st u t now :
  usable Refresh (Signed t) st = true →
  (∃ a st1,
     refresh_token (Some (Signed t)) st =
       (Ok (handle_success_response "Access token successfully refreshed."
              [("token", Tok (Signed a))]), st1))
  ∧ ∃ st',
      logout u (Some (Signed t)) None st =
        (Ok (handle_success_response "Successfully logged out." []), st')
      ∧ ∃ e,
          refresh_token (Some (Signed t)) (set_clock now st') =
            (Ok (handle_exception_response "INVALID_REFRESH_TOKEN"
                   "Invalid or expired refresh token" (Some e)
                   HTTP_400_BAD_REQUEST), set_clock now st').
Proof.
  intros Hu. split.
  - destruct (refresh_token_accepts _ _ Hu) as (t' & a & st1 & _ & Hrun & _).
    eauto.
  - eexists. split; [by apply logout_refresh_only|].
    apply refresh_token_rejects, usable_blacklisted. simpl.
    rewrite isBlacklisted_blacklist. by rewrite bool_decide_eq_true_2.
Qed.

(** [refresh_token] does not rotate or consume the refresh token: after a
    successful call the ledger is as it was and the same token is still
    usable, and a second call answers with an access token of the same
    subject under another identifier.  A request without the [refresh]
    field raises [ValidationError], which the view's only handler, for
    [TokenError], lets through. *)
Theorem refresh_token_keeps_refresh_token st raw :
  refresh_token None st = (Raise ValidationError, st)
  ∧ (usable Refresh raw st = true →
     ∃ a1 a2 st1 st2,
       refresh_token (Some raw) st =
         (Ok (handle_success_response "Access token successfully refreshed."
                [("token", Tok (Signed a1))]), st1)
       ∧ ledger st1 = ledger st
       ∧ usable Refresh raw st1 = true
       ∧ refresh_token (Some raw) st1 =
           (Ok (handle_success_response "Access token successfully refreshed."
                  [("token", Tok (Signed a2))]), st2)
       ∧ user_id a1 = user_id a2 ∧ jti a1 ≠ jti a2).
Proof.
  split; [reflexivity|]. intros Hu.
  destruct (validate_usable _ _ _ Hu) as (t & -> & Hk & Hv).
  assert (∀ s, usable Refresh (Signed t) s = true →
               refresh_token (Some (Signed t)) s =
                 (Ok (handle_success_response
                        "Access token successfully refreshed."
                        [("token", Tok (Signed (mkToken Access (user_id t)
                            (next_jti s) (clock s)
                            (clock s + ACCESS_TOKEN_LIFETIME))))]),
                  set_next_jti (next_jti s + 1) s)) as Hrun.
  { intros s Hs. destruct (validate_usable _ _ _ Hs) as (t' & [= <-] & _ & Hv').
    unfold refresh_token, RefreshToken. unfold try_except, bind at 1. simpl.
    unfold bind at 1. rewrite Hv'. unfold bind. rewrite access_token_run.
    reflexivity. }
  eexists _, _, _, _. split; [by apply Hrun|].
  split; [reflexivity|]. split; [exact Hu|].
  split; [by apply Hrun|]. simpl. split; [reflexivity|lia].
Qed.

(** ** From [login] to [refresh_token] *)

(** The refresh token a successful [login] answers with is accepted by
    [refresh_token] straight away, which answers with an access token for
    the account that logged in.  This when the refresh lifetime is not
    negative and the identifier the token receives is not blacklisted
    already. *)
Theorem login_then_refresh_token st d uid u :
  objects_filter (by_email (auth_email d)) (User_objects st) = [(uid, u)] →
  check_password (auth_password d) (password u) = true →
  is_verified u = true →
  0 ≤ REFRESH_TOKEN_LIFETIME →
  Ledger.isBlacklisted (next_jti st) (ledger st) = false →
  ∃ rt at' st1 a st2,
    login d st =
      (Ok (handle_success_response "Login successful."
             [("refresh", Tok (Signed rt)); ("access", Tok (Signed at'))]), st1)
    ∧ refresh_token (Some (Signed rt)) st1 =
        (Ok (handle_success_response "Access token successfully refreshed."
               [("token", Tok (Signed a))]), st2)
    ∧ typ a = Access ∧ user_id a = uid ∧ jti a ≠ jti at' ∧ jti a ≠ jti rt.
Proof.
  intros Hl Hp Hv Hlife Hbl.
  set (rt := mkToken Refresh uid (next_jti st) (clock st)
               (clock st + REFRESH_TOKEN_LIFETIME)).
  set (st1 := set_next_jti (next_jti st + 1 + 1)
                (set_ledger (Ledger.record (next_jti st) uid)
                   (set_next_jti (next_jti st + 1) st))).
  assert (login d st =
            (Ok (handle_success_response "Login successful."
                   [("refresh", Tok (Signed rt));
                    ("access",
                     Tok (Signed (mkToken Access uid (next_jti st + 1) (clock st)
                                    (clock st + ACCESS_TOKEN_LIFETIME))))]),
             st1)) as Hlogin.
  { unfold login. unfold bind at 1, try_except, bind at 1.
    rewrite (AuthUserSerializer_ok _ _ _ _ Hl Hp).
    unfold bind at 1. rewrite RefreshToken_for_user_run. simpl.
    rewrite Hv. simpl. unfold bind. rewrite access_token_run. reflexivity. }
  assert (usable Refresh (Signed rt) st1 = true) as Hu.
  { simpl. rewrite isBlacklisted_record, Hbl.
    destruct (Z.leb_spec (clock st) (clock st + REFRESH_TOKEN_LIFETIME));
      [done|lia]. }
  destruct (validate_usable _ _ _ Hu) as (t' & [= <-] & _ & Hval).
  exists rt. eexists. exists st1.
  exists (mkToken Access uid (next_jti st1) (clock st1)
            (clock st1 + ACCESS_TOKEN_LIFETIME)).
  eexists. split; [exact Hlogin|]. split.
  - unfold refresh_token, RefreshToken. unfold try_except, bind at 1. simpl.
    unfold bind at 1. rewrite Hval. unfold bind. rewrite access_token_run.
    reflexivity.
  - simpl. repeat split; lia.
Qed.

(** Called without parameters, [logout] revokes no token that was issued
    before the call: every token that was usable, under an identifier
    older than the pair the call issues for itself, is usable afterwards,
    so the refresh token the caller holds still refreshes. *)
Theorem logout_without_parameters_revokes_nothing_held st u rp ap kind t :
  truthy rp = false → truthy ap = false →
  usable kind (Signed t) st = true →
  jti t < next_jti st →
  usable kind (Signed t) (logout u rp ap st).2 = true
  ∧ (kind = Refresh →
     ∃ a st',
       refresh_token (Some (Signed t)) (logout u rp ap st).2 =
         (Ok (handle_success_response "Access token successfully refreshed."
                [("token", Tok (Signed a))]), st')).
Proof.
  intros Hr Ha Hu Hlt. rewrite (logout_neither _ u _ _ Hr Ha).
  assert (usable kind (Signed t)
            (set_next_jti (next_jti st + 1 + 1)
               (set_ledger (Ledger.record (next_jti st) u.1) st))
          = true) as Hu'.
  { simpl in *. rewrite isBlacklisted_record. exact Hu. }
  split; [exact Hu'|].
  intros ->. simpl snd.
  destruct (refresh_token_accepts _ _ Hu') as (t' & a & st' & _ & Hrun & _).
  eauto.
Qed.

(** ** [get_profile] *)

(** [get_profile] looks the account up by the email of the request's
    user: it answers USER_NOT_FOUND with status 404 exactly when no
    account has that email, and with status 200 exactly when one account
    has it. *)
Theorem get_profile_outcomes st u :
  (status_of_result (get_profile u st).1 = Some HTTP_404_NOT_FOUND
   ↔ objects_filter (by_email (email u.2)) (User_objects st) = [])
  ∧ (status_of_result (get_profile u st).1 = Some HTTP_200_OK
     ↔ ∃ p, objects_filter (by_email (email u.2)) (User_objects st) = [p])
  ∧ (objects_filter (by_email (email u.2)) (User_objects st) = [] →
     (get_profile u st).1 = Ok USER_NOT_FOUND).
Proof.
  unfold get_profile, User_objects_get_by_email, objects_get. mrun.
  destruct (objects_filter (by_email (email u.2)) (User_objects st))
    as [|p [|p' l]]; simpl.
  - split; [done|]. split; [|done]. split; [discriminate|]. by intros [p [=]].
  - split; [split; discriminate|]. split; [|discriminate].
    split; [eauto|done].
  - split; [split; discriminate|]. split; [|discriminate].
    split; [discriminate|]. by intros [p0 [=]].
Qed.

End more_properties.

(** * The sample deployment *)

#[local] Existing Instance sample_collaborators.

(** The example of the specification: registration, a login refused for
    want of verification, verification, and a login that succeeds. *)
Example register_login_verify_login :
  let st1 := (register alice empty_db).2 in
  let st2 := (login alice_login st1).2 in
  let st3 := (verify_email (Some "t1") st2).2 in
  status_of_result (register alice empty_db).1 = Some 200
  ∧ error_code_of_result (login alice_login st1).1 = Some "NOT_VERIFIED"
  ∧ status_of_result (login alice_login st1).1 = Some 400
  ∧ status_of_result (verify_email (Some "t1") st2).1 = Some 200
  ∧ status_of_result (login alice_login st3).1 = Some 200.
Proof. vm_compute. repeat split; reflexivity. Qed.

(** C1: Alice resets her password with the token she was sent and is
    answered 204; the same request again finds the token consumed, and
    the view raises [UnboundLocalError] on the name [e] instead of
    answering INVALID_TOKEN. *)
Theorem reset_password_replay_unbound_e :
  (reset_password (Some alice_user) alice_reset reset_requested_db).1
    = Ok (mkResponse NoBody HTTP_204_NO_CONTENT)
  ∧ (reset_password (Some alice_user) alice_reset
       (reset_password (Some alice_user) alice_reset reset_requested_db).2).1
    = Raise (UnboundLocalError "e")
  ∧ error_code_of_result
      (reset_password (Some alice_user) alice_reset
         (reset_password (Some alice_user) alice_reset reset_requested_db).2).1
    ≠ Some "INVALID_TOKEN".
Proof. vm_compute. repeat split; discriminate. Qed.

(** Alice's verification token of time 0 is accepted at 23h59m and
    refused at 24h01m; so is her reset token, counted from its creation
    one hour in. *)
Lemma one_time_token_window_witness :
  (∃ payload,
     (verify_email (Some "t1")
        (set_clock (timedelta 24 - minutes 1) registered_db)).1 =
       Ok (mkResponse (SuccessBody "Email verified successfully" payload)
             HTTP_200_OK))
  ∧ (verify_email (Some "t1")
       (set_clock (timedelta 24 + minutes 1) registered_db)).1 =
      Ok (handle_exception_response "EXPIRED_TOKEN"
            "Invalid or expired verification token." None HTTP_400_BAD_REQUEST)
  ∧ (reset_password (Some alice_user) alice_reset
       (set_clock (timedelta 1 + timedelta 24 - minutes 1) reset_requested_db)).1 =
      Ok (mkResponse NoBody HTTP_204_NO_CONTENT)
  ∧ (reset_password (Some alice_user) alice_reset
       (set_clock (timedelta 1 + timedelta 24 + minutes 1) reset_requested_db)).1 =
      Ok (handle_exception_response "INVALID_TOKEN"
            "Password reset token has expired." None HTTP_400_BAD_REQUEST).
Proof.
  split; [|split; [|split]].
  - destruct (one_time_token_window registered_db (timedelta 24 - minutes 1))
      as [Hv _].
    destruct (Hv "t1" 1 (mkOneTimeToken "t1" 1 0)
                (mkUser "a@x.com" "hash:Passw0rd!" false ∅)) as [Hacc _];
      [vm_compute; reflexivity | vm_compute; reflexivity |].
    apply Hacc. vm_compute. reflexivity.
  - destruct (one_time_token_window registered_db (timedelta 24 + minutes 1))
      as [Hv _].
    destruct (Hv "t1" 1 (mkOneTimeToken "t1" 1 0)
                (mkUser "a@x.com" "hash:Passw0rd!" false ∅)) as [_ Hrej];
      [vm_compute; reflexivity | vm_compute; reflexivity |].
    apply Hrej. vm_compute. discriminate.
  - destruct (one_time_token_window reset_requested_db
                (timedelta 1 + timedelta 24 - minutes 1)) as [_ Hr].
    destruct (Hr alice_user "t1" "N3wPassw0rd!" 1
                (mkOneTimeToken "t1" 1 (timedelta 1))) as [Hacc _];
      [vm_compute; reflexivity |].
    apply Hacc. vm_compute. reflexivity.
  - destruct (one_time_token_window reset_requested_db
                (timedelta 1 + timedelta 24 + minutes 1)) as [_ Hr].
    destruct (Hr alice_user "t1" "N3wPassw0rd!" 1
                (mkOneTimeToken "t1" 1 (timedelta 1))) as [_ Hrej];
      [vm_compute; reflexivity |].
    apply Hrej. vm_compute. discriminate.
Defined.

(** Alice's refresh token, blacklisted by her logout, is still blacklisted
    after an hour, another registration and a password reset request,
    and is refused by [refresh_token] although it has 23 hours to run. *)
Lemma blacklisted_forever_witness :
  let es := [Tick (Z.to_N (timedelta 1)); Serve (Register bob);
             Serve (SendPasswordResetToken (Some "a@x.com"))] in
  Ledger.isBlacklisted 1 (ledger logged_out_db) = true
  ∧ clock (run es logged_out_db) < exp alice_refresh
  ∧ Ledger.isBlacklisted 1 (ledger (run es logged_out_db)) = true
  ∧ ∃ e, refresh_token (Some (Signed alice_refresh)) (run es logged_out_db) =
           (Ok (handle_exception_response "INVALID_REFRESH_TOKEN"
                  "Invalid or expired refresh token" (Some e)
                  HTTP_400_BAD_REQUEST), run es logged_out_db).
Proof.
  intros es.
  assert (Ledger.isBlacklisted 1 (ledger logged_out_db) = true) as Hbl
    by (vm_compute; reflexivity).
  destruct (blacklisted_forever es logged_out_db 1 Hbl) as (Hkeep & _ & Hrt & _).
  split; [exact Hbl|]. split; [vm_compute; reflexivity|].
  split; [exact Hkeep|]. apply (Hrt alice_refresh). reflexivity.
Defined.

(** Alice, registered at [registered_db] and not yet verified, is refused
    with NOT_VERIFIED; after she verifies with her token she is let in. *)
Lemma login_requires_verification_witness :
  (login alice_login registered_db).1 =
    Ok (handle_exception_response "NOT_VERIFIED"
          "User's email is not verified." None HTTP_400_BAD_REQUEST)
  ∧ ∃ rt at',
      (login alice_login (verify_email (Some "t1") registered_db).2).1 =
        Ok (handle_success_response "Login successful."
              [("refresh", Tok (Signed rt)); ("access", Tok (Signed at'))])
      ∧ typ rt = Refresh ∧ typ at' = Access.
Proof.
  destruct (login_requires_verification registered_db alice_login 1
              (mkUser "a@x.com" "hash:Passw0rd!" false ∅))
    as [Hno Hyes]; [vm_compute; reflexivity | vm_compute; reflexivity |].
  split.
  - apply Hno. reflexivity.
  - destruct (verify_email (Some "t1") registered_db) as [res st'] eqn:Hrun.
    assert (∃ resp, res = Ok resp ∧ status_code resp = HTTP_200_OK)
      as (resp & -> & Hok).
    { vm_compute in Hrun. injection Hrun as <- _. eexists. split; reflexivity. }
    apply (Hyes "t1" 1 (mkOneTimeToken "t1" 1 0) resp st');
      [vm_compute; reflexivity | reflexivity | reflexivity | exact Hrun | exact Hok].
Defined.

(** Alice's refresh token is exchanged for an access token with her
    subject while it is good, and refused once she has logged out with
    it; a string that is no token is refused as well. *)
Lemma refresh_token_subject_witness :
  (∃ a st',
     refresh_token (Some (Signed alice_refresh)) registered_db =
       (Ok (handle_success_response "Access token successfully refreshed."
              [("token", Tok (Signed a))]), st')
     ∧ typ a = Access ∧ user_id a = user_id alice_refresh)
  ∧ (∃ e, refresh_token (Some (Signed alice_refresh)) logged_out_db =
            (Ok (handle_exception_response "INVALID_REFRESH_TOKEN"
                   "Invalid or expired refresh token" (Some e)
                   HTTP_400_BAD_REQUEST), logged_out_db))
  ∧ (∃ e, refresh_token (Some (Garbage "junk")) registered_db =
            (Ok (handle_exception_response "INVALID_REFRESH_TOKEN"
                   "Invalid or expired refresh token" (Some e)
                   HTTP_400_BAD_REQUEST), registered_db)).
Proof.
  split; [|split].
  - destruct (refresh_token_subject registered_db (Signed alice_refresh))
      as (_ & _ & _ & Hok).
    destruct Hok as (t & a & st' & [= <-] & Hrun & Ha & Hs);
      [vm_compute; reflexivity|].
    by exists a, st'.
  - destruct (refresh_token_subject logged_out_db (Signed alice_refresh))
      as (Hbl & _ & Hbad & _).
    apply Hbad, (Hbl alice_refresh); [reflexivity|vm_compute; reflexivity].
  - destruct (refresh_token_subject registered_db (Garbage "junk"))
      as (_ & _ & Hbad & _).
    apply Hbad. reflexivity.
Defined.

(** Alice's refused login at [registered_db] has used up token identifier
    3 and left a refresh token for her on the ledger. *)
Lemma login_unverified_mints_and_discards_witness :
  ∃ rt,
    RefreshToken_for_user (1, mkUser "a@x.com" "hash:Passw0rd!" false ∅)
      registered_db = (Ok rt, (login alice_login registered_db).2)
    ∧ jti rt = 3
    ∧ error_code_of_result (login alice_login registered_db).1
      = Some "NOT_VERIFIED"
    ∧ ledger (login alice_login registered_db).2 !! 3
      = Some (mkEntry (Some 1) outstanding)
    ∧ (login alice_login registered_db).2 ≠ registered_db.
Proof.
  destruct (login_unverified_mints_and_discards registered_db alice_login 1
              (mkUser "a@x.com" "hash:Passw0rd!" false ∅))
    as (rt & Hrun & _ & _ & Hjti & Hresp & _ & _ & Hled & Hne);
    [vm_compute; reflexivity | vm_compute; reflexivity | reflexivity |].
  exists rt. split; [exact Hrun|]. split; [exact Hjti|].
  split; [rewrite Hresp; reflexivity|].
  split; [|exact Hne].
  rewrite Hjti in Hled. apply Hled. vm_compute. reflexivity.
Defined.

(** Alice logs out of [registered_db] with her refresh token: the answer
    is the success response and identifier 1 is blacklisted; with a
    string that is no token the answer is INVALID_REFRESH_TOKEN. *)
Lemma logout_blacklists_supplied_witness :
  (logout alice_user (Some (Signed alice_refresh)) None registered_db).1 =
    Ok (handle_success_response "Successfully logged out." [])
  ∧ (∀ j, Ledger.isBlacklisted j
            (ledger (logout alice_user (Some (Signed alice_refresh)) None
                       registered_db).2)
          = Ledger.isBlacklisted j (ledger registered_db)
            || bool_decide (j = 1))
  ∧ (∃ e, (logout alice_user (Some (Garbage "junk")) None registered_db).1 =
            Ok (handle_exception_response "INVALID_REFRESH_TOKEN"
                  "Invalid or expired token" (Some e) HTTP_400_BAD_REQUEST)).
Proof.
  destruct (logout_blacklists_supplied registered_db alice_user
              (Some (Signed alice_refresh)) None) as (_ & Honly & _ & _).
  destruct (Honly alice_refresh) as [Hrun Hexact];
    [reflexivity | vm_compute; reflexivity | reflexivity |].
  split; [exact Hrun|]. split; [exact Hexact|].
  destruct (logout_blacklists_supplied registered_db alice_user
              (Some (Garbage "junk")) None) as (_ & _ & _ & Hbad).
  apply (Hbad (Garbage "junk")). left. split; reflexivity.
Defined.

(** C7, the claim as stated fails: a supplied token that is invalid is
    answered with the error code INVALID_REFRESH_TOKEN, not with
    INVALID_TOKEN. *)
Lemma logout_invalid_token_code :
  (logout alice_user (Some (Garbage "junk")) None registered_db).1 =
    Ok (handle_exception_response "INVALID_REFRESH_TOKEN"
          "Invalid or expired token" (Some (TokenError "MalformedToken"))
          HTTP_400_BAD_REQUEST)
  ∧ error_code_of_result
      (logout alice_user (Some (Garbage "junk")) None registered_db).1
    ≠ Some "INVALID_TOKEN".
Proof. vm_compute. split; [reflexivity|discriminate]. Qed.

(** Alice's reset token, 25 hours old, is reported as INVALID_TOKEN. *)
Lemma reset_password_expiry_is_invalid_token_witness :
  reset_password (Some alice_user) alice_reset
    (set_clock (timedelta 26) reset_requested_db) =
    (Ok (handle_exception_response "INVALID_TOKEN"
           "Password reset token has expired." None HTTP_400_BAD_REQUEST),
     set_clock (timedelta 26) reset_requested_db)
  ∧ error_code_of_result
      (reset_password (Some alice_user) alice_reset
         (set_clock (timedelta 26) reset_requested_db)).1
    ≠ Some "EXPIRED_TOKEN".
Proof.
  destruct (reset_password_expiry_is_invalid_token
              (set_clock (timedelta 26) reset_requested_db)) as [Hexp Hnever].
  split.
  - apply (Hexp alice_user "t1" "N3wPassw0rd!" 1
             (mkOneTimeToken "t1" 1 (timedelta 1)));
      [vm_compute; reflexivity | vm_compute; discriminate].
  - destruct (reset_password (Some alice_user) alice_reset
                (set_clock (timedelta 26) reset_requested_db)).1
      as [resp|e] eqn:Hrun; [|discriminate].
    exact (Hnever _ _ resp Hrun).
Defined.

(** C8, the claim as stated fails: the reset token of Alice's own account
    exists and is 25 hours old, and the error code of the answer is
    INVALID_TOKEN, not EXPIRED_TOKEN. *)
Lemma reset_password_expired_code :
  PasswordResetToken_objects (set_clock (timedelta 26) reset_requested_db) !! 1
    = Some (mkOneTimeToken "t1" alice_user.1 (timedelta 1))
  ∧ timedelta 1 + timedelta 24
    < clock (set_clock (timedelta 26) reset_requested_db)
  ∧ error_code_of_result
      (reset_password (Some alice_user) alice_reset
         (set_clock (timedelta 26) reset_requested_db)).1
    = Some "INVALID_TOKEN"
  ∧ error_code_of_result
      (reset_password (Some alice_user) alice_reset
         (set_clock (timedelta 26) reset_requested_db)).1
    ≠ Some "EXPIRED_TOKEN".
Proof. vm_compute. repeat split; discriminate. Qed.

(** Alice's tokens presented 26 hours in: both are refused, both rows are
    still stored, and her account is as it was. *)
Lemma expired_token_frame_witness :
  (∃ resp,
     verify_email (Some "t1") (set_clock (timedelta 26) registered_db) =
       (Ok resp, set_clock (timedelta 26) registered_db)
     ∧ error_code_of resp = Some "EXPIRED_TOKEN")
  ∧ (∃ resp,
       reset_password (Some alice_user) alice_reset
         (set_clock (timedelta 26) reset_requested_db) =
         (Ok resp, set_clock (timedelta 26) reset_requested_db)
       ∧ error_code_of resp = Some "INVALID_TOKEN").
Proof.
  split.
  - destruct (expired_token_frame (set_clock (timedelta 26) registered_db))
      as [Hv _].
    destruct (Hv "t1" 1 (mkOneTimeToken "t1" 1 0))
      as (resp & st' & Hrun & Hcode & -> & _);
      [vm_compute; reflexivity | vm_compute; discriminate |].
    by exists resp.
  - destruct (expired_token_frame (set_clock (timedelta 26) reset_requested_db))
      as [_ Hr].
    destruct (Hr alice_user "t1" "N3wPassw0rd!" 1
                (mkOneTimeToken "t1" 1 (timedelta 1)))
      as (resp & st' & Hrun & Hcode & -> & _);
      [vm_compute; reflexivity | vm_compute; discriminate |].
    by exists resp.
Defined.

(** Alice's reset of her own password succeeds for Alice; the same request
    sent without authentication is answered with VALIDATION_ERROR, and
    sent by Bob it changes nothing and does not succeed. *)
Lemma reset_password_owner_only_witness :
  (∃ usr, Some alice_user = Some usr
          ∧ PasswordResetToken_objects reset_requested_db !! 1
            = Some (mkOneTimeToken "t1" usr.1 (timedelta 1)))
  ∧ (∃ e, reset_password None alice_reset reset_requested_db =
            (Ok (VALIDATION_ERROR e), reset_requested_db))
  ∧ (reset_password (Some bob_user) alice_reset reset_requested_db).2
    = reset_requested_db.
Proof.
  destruct (reset_password_owner_only reset_requested_db)
    as (_ & _ & Hown & Hanon & Hother).
  split; [|split].
  - destruct (reset_password (Some alice_user) alice_reset reset_requested_db)
      as [res st'] eqn:Hrun.
    assert (∃ resp, res = Ok resp ∧ status_code resp = HTTP_204_NO_CONTENT)
      as (resp & -> & Hok).
    { vm_compute in Hrun. injection Hrun as <- _. eexists. split; reflexivity. }
    destruct (Hown _ _ _ _ Hrun Hok)
      as (usr & tok & pw & k & r & Hu & _ & _).
    exists usr. split; [exact Hu|]. injection Hu as <-.
    vm_compute. reflexivity.
  - apply Hanon.
  - apply (Hother bob_user "t1" "N3wPassw0rd!").
    intros k r Hk _. 
    assert (k = 1 ∧ r = mkOneTimeToken "t1" 1 (timedelta 1)) as [-> ->].
    { assert ((k, r) ∈ map_to_list (PasswordResetToken_objects reset_requested_db))
        as Hin by (by apply elem_of_map_to_list).
      vm_compute in Hin. apply list_elem_of_singleton in Hin.
      injection Hin as -> ->. split; reflexivity. }
    vm_compute. discriminate.
Defined.

(** C10, the claim as stated fails: with a valid, unexpired token of
    Alice's, the unauthenticated call is answered with VALIDATION_ERROR,
    and Bob's call raises [UnboundLocalError]; neither is answered with
    INVALID_TOKEN. *)
Lemma reset_password_not_invalid_token :
  (reset_password None alice_reset reset_requested_db).1 =
    Ok (VALIDATION_ERROR TypeError)
  ∧ error_code_of_result (reset_password None alice_reset reset_requested_db).1
    ≠ Some "INVALID_TOKEN"
  ∧ (reset_password (Some bob_user) alice_reset reset_requested_db).1 =
      Raise (UnboundLocalError "e")
  ∧ error_code_of_result
      (reset_password (Some bob_user) alice_reset reset_requested_db).1
    ≠ Some "INVALID_TOKEN".
Proof. vm_compute. repeat split; discriminate. Qed.

(** * The further properties on the sample deployment *)

(** Nobody has registered [z@x.com], and Alice's password is not
    [letmein]. *)
Lemma login_bad_credentials_witness :
  login (mkAuthData "z@x.com" "Passw0rd!") verified_db =
    (Ok (VALIDATION_ERROR ValidationError), verified_db)
  ∧ login (mkAuthData "a@x.com" "letmein") verified_db =
      (Ok (VALIDATION_ERROR ValidationError), verified_db).
Proof.
  split.
  - destruct (login_bad_credentials verified_db (mkAuthData "z@x.com" "Passw0rd!"))
      as [Hnone _].
    apply Hnone. vm_compute. reflexivity.
  - destruct (login_bad_credentials verified_db (mkAuthData "a@x.com" "letmein"))
      as [_ Hbad].
    apply (Hbad 1 alice_user.2); vm_compute; reflexivity.
Defined.

(** Alice changes her password and logs in with the new one; the old one
    is refused. *)
Lemma change_password_then_login_witness :
  ∃ st',
    change_password alice_user (Some "N3wPassw0rd!") verified_db =
      (Ok (mkResponse NoBody HTTP_204_NO_CONTENT), st')
    ∧ status_of_result (login (mkAuthData "a@x.com" "N3wPassw0rd!") st').1
      = Some HTTP_200_OK
    ∧ (login alice_login st').1 = Ok (VALIDATION_ERROR ValidationError).
Proof.
  destruct (change_password_then_login verified_db 1 alice_user.2 "N3wPassw0rd!")
    as (_ & st' & Hrun & (rt & at' & Hnew) & Hold);
    [vm_compute; reflexivity | reflexivity | vm_compute; reflexivity |].
  exists st'. split; [exact Hrun|]. split.
  - simpl in Hnew. rewrite Hnew. reflexivity.
  - apply (Hold "Passw0rd!"). vm_compute. reflexivity.
Defined.

(** A token string nobody was sent leaves [registered_db] as it is. *)
Lemma verify_email_writes_only_on_success_witness :
  (verify_email (Some "nope") registered_db).2 = registered_db.
Proof.
  destruct (verify_email_writes_only_on_success registered_db (Some "nope"))
    as [_ Hframe].
  apply Hframe. vm_compute. discriminate.
Defined.

(** Alice's verification at [registered_db] sets her flag and deletes her
    token row. *)
Lemma verify_email_touches_owner_only_witness :
  ∃ k r u,
    EmailVerificationToken_objects registered_db !! k = Some r
    ∧ User_objects registered_db !! user r = Some u
    ∧ User_objects (verify_email (Some "t1") registered_db).2 !! user r
      = Some (mkUser (email u) (password u) true (profile u))
    ∧ EmailVerificationToken_objects (verify_email (Some "t1") registered_db).2
      = delete k (EmailVerificationToken_objects registered_db).
Proof.
  destruct (verify_email (Some "t1") registered_db) as [res st'] eqn:Hrun.
  assert (∃ resp, res = Ok resp ∧ status_code resp = HTTP_200_OK)
    as (resp & -> & Hok).
  { vm_compute in Hrun. injection Hrun as <- _. eexists. split; reflexivity. }
  destruct (verify_email_touches_owner_only _ _ _ _ Hrun Hok)
    as (k & r & u & Hk & _ & Hu & Hu' & _ & Hdel & _).
  by exists k, r, u.
Defined.

(** Bob presenting Alice's reset token leaves [reset_requested_db] as it
    is. *)
Lemma reset_password_writes_only_on_success_witness :
  (reset_password (Some bob_user) alice_reset reset_requested_db).2
  = reset_requested_db.
Proof.
  apply reset_password_writes_only_on_success. vm_compute. discriminate.
Defined.

(** Alice resets her password with the token she was sent and logs in
    with the new password. *)
Lemma reset_password_then_login_witness :
  ∃ st',
    reset_password (Some alice_user) alice_reset reset_requested_db
      = (Ok (mkResponse NoBody HTTP_204_NO_CONTENT), st')
    ∧ PasswordResetToken_objects st' !! 1 = None
    ∧ status_of_result (login (mkAuthData "a@x.com" "N3wPassw0rd!") st').1
      = Some HTTP_200_OK.
Proof.
  destruct (reset_password_then_login reset_requested_db 1 alice_user.2 "t1"
              "N3wPassw0rd!" 1 (mkOneTimeToken "t1" 1 (timedelta 1)))
    as (st' & Hrun & _ & Hgone & (rt & at' & Hlogin) & _);
    [vm_compute; reflexivity | vm_compute; reflexivity | vm_compute; reflexivity
    | reflexivity | vm_compute; reflexivity |].
  exists st'. split; [exact Hrun|]. split; [exact Hgone|].
  simpl in Hlogin. rewrite Hlogin. reflexivity.
Defined.

(** Nobody has registered [z@x.com]. *)
Lemma send_password_reset_token_errors_witness :
  send_password_reset_token (Some "z@x.com") verified_db =
    (Ok USER_NOT_FOUND, verified_db).
Proof.
  destruct (send_password_reset_token_errors verified_db) as [_ Hnone].
  apply Hnone. vm_compute. reflexivity.
Defined.

(** Alice asks for a reset token at [verified_db] and uses it 23 hours
    later. *)
Lemma send_password_reset_token_then_reset_witness :
  ∃ st',
    send_password_reset_token (Some "a@x.com") verified_db =
      (Ok (handle_success_response "Password reset token sent to your email."
             [("token", Str "t1")]), st')
    ∧ (reset_password (Some alice_user) alice_reset
         (set_clock (timedelta 23) st')).1 =
        Ok (mkResponse NoBody HTTP_204_NO_CONTENT).
Proof.
  destruct (send_password_reset_token_then_reset verified_db "a@x.com" 1
              alice_user.2 "N3wPassw0rd!" (timedelta 23))
    as (st' & Hrun & _ & _ & _ & Hok & _).
  - vm_compute. reflexivity.
  - intros k r Hk. exfalso. vm_compute in Hk. discriminate.
  - exists st'. split; [exact Hrun|]. apply Hok. vm_compute. reflexivity.
Defined.

(** Alice cannot register twice, and [short] does not meet the policy. *)
Lemma register_rejects_witness :
  register alice registered_db =
    (Ok (VALIDATION_ERROR ValidationError), registered_db)
  ∧ register (mkRegisterData "c@x.com" "short" ∅) registered_db =
      (Ok (VALIDATION_ERROR ValidationError), registered_db).
Proof.
  split.
  - destruct (register_rejects registered_db alice) as [Hdup _].
    apply (Hdup (1, mkUser "a@x.com" "hash:Passw0rd!" false ∅) []).
    vm_compute. reflexivity.
  - destruct (register_rejects registered_db
                (mkRegisterData "c@x.com" "short" ∅)) as [_ Hweak].
    apply Hweak. reflexivity.
Defined.

(** Carol signs up at [registered_db], is sent [t2], verifies and logs
    in. *)
Lemma register_verify_login_witness :
  ∃ rt at' st1,
    register carol registered_db =
      (Ok (handle_success_response "User registered successfully."
             [("refresh", Tok (Signed rt)); ("access", Tok (Signed at'));
              ("email_verification_token", Str "t2")]), st1)
    ∧ error_code_of_result
        (login (mkAuthData "c@x.com" "Tr0ub4dor&3") st1).1 = Some "NOT_VERIFIED"
    ∧ ∃ resp st2,
        verify_email (Some "t2") st1 = (Ok resp, st2)
        ∧ status_of_result
            (login (mkAuthData "c@x.com" "Tr0ub4dor&3") st2).1
          = Some HTTP_200_OK.
Proof.
  destruct (register_verify_login registered_db carol)
    as (rt & at' & st1 & Hrun & Hno & resp & st2 & Hver & _ & rt' & at'' & Hyes).
  - vm_compute. reflexivity.
  - reflexivity.
  - vm_compute. reflexivity.
  - intros k r Hk.
    assert ((k, r) ∈ map_to_list (EmailVerificationToken_objects registered_db))
      as Hin by (by apply elem_of_map_to_list).
    vm_compute in Hin. apply list_elem_of_singleton in Hin.
    injection Hin as -> ->. vm_compute. discriminate.
  - exists rt, at', st1. split; [exact Hrun|]. split.
    + simpl in Hno. rewrite Hno. reflexivity.
    + exists resp, st2. split; [exact Hver|].
      simpl in Hyes. rewrite Hyes. reflexivity.
Defined.

(** [junk] is not the empty string. *)
Lemma logout_empty_parameters_witness :
  ∃ e, logout alice_user (Some (Garbage "junk")) None registered_db =
         (Ok (handle_exception_response "INVALID_REFRESH_TOKEN"
                "Invalid or expired token" (Some e) HTTP_400_BAD_REQUEST),
          registered_db).
Proof.
  destruct (logout_empty_parameters registered_db alice_user None None)
    as (_ & _ & Hjunk).
  apply (Hjunk "junk"). discriminate.
Defined.

(** Alice logs out with her refresh token and a string that is no access
    token: the answer is an error, and her refresh token is blacklisted. *)
Lemma logout_error_keeps_blacklisting_witness :
  ∃ e st',
    logout alice_user (Some (Signed alice_refresh)) (Some (Garbage "junk"))
      registered_db =
      (Ok (handle_exception_response "INVALID_REFRESH_TOKEN"
             "Invalid or expired token" (Some e) HTTP_400_BAD_REQUEST), st')
    ∧ Ledger.isBlacklisted 1 (ledger st') = true.
Proof.
  destruct (logout_error_keeps_blacklisting registered_db alice_user
              alice_refresh (Garbage "junk"))
    as (e & st' & Hrun & Hbl & _);
    [vm_compute; reflexivity | reflexivity | reflexivity |].
  by exists e, st'.
Defined.

(** Alice's refresh token refreshes before her logout and is refused
    after it, an hour later as well. *)
Lemma logout_then_refresh_token_witness :
  status_of_result (refresh_token (Some (Signed alice_refresh)) registered_db).1
    = Some HTTP_200_OK
  ∧ ∃ st',
      logout alice_user (Some (Signed alice_refresh)) None registered_db =
        (Ok (handle_success_response "Successfully logged out." []), st')
      ∧ error_code_of_result
          (refresh_token (Some (Signed alice_refresh))
             (set_clock (timedelta 1) st')).1
        = Some "INVALID_REFRESH_TOKEN".
Proof.
  destruct (logout_then_refresh_token registered_db alice_user alice_refresh
              (timedelta 1))
    as ((a & st1 & Hbefore) & st' & Hout & e & Hafter);
    [vm_compute; reflexivity|].
  split; [by rewrite Hbefore|].
  exists st'. split; [exact Hout|]. by rewrite Hafter.
Defined.

(** Alice refreshes twice with the same refresh token and receives access
    tokens 3 and 4. *)
Lemma refresh_token_keeps_refresh_token_witness :
  ∃ a1 a2 st1 st2,
    refresh_token (Some (Signed alice_refresh)) registered_db =
      (Ok (handle_success_response "Access token successfully refreshed."
             [("token", Tok (Signed a1))]), st1)
    ∧ refresh_token (Some (Signed alice_refresh)) st1 =
        (Ok (handle_success_response "Access token successfully refreshed."
               [("token", Tok (Signed a2))]), st2)
    ∧ jti a1 ≠ jti a2.
Proof.
  destruct (refresh_token_keeps_refresh_token registered_db
              (Signed alice_refresh)) as [_ Hkeep].
  destruct Hkeep as (a1 & a2 & st1 & st2 & Hr1 & _ & _ & Hr2 & _ & Hne);
    [vm_compute; reflexivity|].
  by exists a1, a2, st1, st2.
Defined.

(** Alice, verified, logs in and refreshes with the token she received. *)
Lemma login_then_refresh_token_witness :
  ∃ rt at' st1 a st2,
    login alice_login verified_db =
      (Ok (handle_success_response "Login successful."
             [("refresh", Tok (Signed rt)); ("access", Tok (Signed at'))]), st1)
    ∧ refresh_token (Some (Signed rt)) st1 =
        (Ok (handle_success_response "Access token successfully refreshed."
               [("token", Tok (Signed a))]), st2)
    ∧ user_id a = 1.
Proof.
  destruct (login_then_refresh_token verified_db alice_login 1 alice_user.2)
    as (rt & at' & st1 & a & st2 & Hlogin & Hrefresh & _ & Huid & _);
    [vm_compute; reflexivity | vm_compute; reflexivity | reflexivity
    | vm_compute; discriminate | vm_compute; reflexivity |].
  by exists rt, at', st1, a, st2.
Defined.

(** Alice logs out of [registered_db] without parameters: her refresh
    token is as usable as before. *)
Lemma logout_without_parameters_revokes_nothing_held_witness :
  usable Refresh (Signed alice_refresh)
    (logout alice_user None None registered_db).2 = true
  ∧ ∃ a st',
      refresh_token (Some (Signed alice_refresh))
        (logout alice_user None None registered_db).2 =
        (Ok (handle_success_response "Access token successfully refreshed."
               [("token", Tok (Signed a))]), st').
Proof.
  destruct (logout_without_parameters_revokes_nothing_held registered_db
              alice_user None None Refresh alice_refresh)
    as (Hu & Hr);
    [reflexivity | reflexivity | vm_compute; reflexivity
    | vm_compute; reflexivity |].
  split; [exact Hu|]. by apply Hr.
Defined.

(** Alice's profile is found; the profile of a user whose email nobody
    has registered is not. *)
Lemma get_profile_outcomes_witness :
  status_of_result (get_profile alice_user verified_db).1 = Some HTTP_200_OK
  ∧ (get_profile (7, mkUser "z@x.com" "" true ∅) verified_db).1
    = Ok USER_NOT_FOUND.
Proof.
  split.
  - destruct (get_profile_outcomes verified_db alice_user) as (_ & [_ Hfound] & _).
    apply Hfound. eexists. vm_compute. reflexivity.
  - destruct (get_profile_outcomes verified_db (7, mkUser "z@x.com" "" true ∅))
      as (_ & _ & Hnone).
    apply Hnone. vm_compute. reflexivity.
Defined.

